(** * Model conversion scripts: locate, fetch, resolve, export

    A shallow embedding of the control flow of the conversion scripts
    (convert-fbcnn-to-onnx.py, convert-scunet-to-onnx.py,
    convert-zero-dce-to-onnx.py, convert-deoldify-to-onnx.py,
    convert-realesrgan-to-onnx.py, convert-ai-detector-to-onnx.py).

    The scripts are sequences of calls into the file system, the network,
    the terminal and the tensor runtime.  Those collaborators are oracles
    gathered in the record [env]; what the scripts do to them is recorded
    in a [world]: the files on disk, the lines still to be read on
    standard input, and the trace of every external call and of the
    messages printed.  Python exceptions are values of type [exn]; a
    [try]/[except] is a [match] on a sum. *)

From Stdlib Require Import ZArith String Ascii List Lia Sorted.
From stdpp Require Import base option gmap strings list pretty.

Set Warnings "-register-all".
Local Open Scope Z_scope.

(** ** Python values and exceptions *)

Module Py.

(** The exception classes the scripts distinguish in their [except]
    clauses.  All four derive from [Exception]; [KeyboardInterrupt] and
    [SystemExit], which do not, are outside the model. *)
Inductive exn :=
| HTTPError (code : Z)
| CalledProcessError (stderr : string)
| ImportError (msg : string)
| Exception (msg : string).

(** What [torch.load] and the generator factory can hand back.  A [dict]
    keeps its insertion order (the state-dict test looks at the first five
    values).  [VModule] is an [nn.Module] with its [training] flag and its
    named attributes; [VObject] is any other object with attributes, such
    as the learner the DeOldify factory returns. *)
Inductive value :=
| VNone
| VInt (z : Z)
| VTensor
| VDict (items : list (string * value))
| VModule (training : bool) (attrs : list (string * value))
| VObject (attrs : list (string * value)).

Fixpoint assoc {A} (k : string) (l : list (string * A)) : option A :=
  match l with
  | [] => None
  | (k', v) :: r => if String.eqb k k' then Some v else assoc k r
  end.

(** [d.get(key, default)] on a dict. *)
Definition dict_get (items : list (string * value)) (k : string) (default : value) : value :=
  match assoc k items with Some v => v | None => default end.

(** [k in d]. *)
Definition dict_mem (items : list (string * value)) (k : string) : bool :=
  match assoc k items with Some _ => true | None => false end.

(** [isinstance(v, dict)]. *)
Definition is_dict (v : value) : bool :=
  match v with VDict _ => true | _ => false end.

(** [isinstance(v, (torch.Tensor, dict))]. *)
Definition is_tensor_or_dict (v : value) : bool :=
  match v with VTensor | VDict _ => true | _ => false end.

(** [hasattr(v, name)] for the two names the scripts ask about. *)
Definition hasattr (v : value) (name : string) : bool :=
  match v with
  | VModule _ attrs | VObject attrs =>
      match assoc name attrs with Some _ => true | None => false end
  | _ => false
  end.

Definition getattr (v : value) (name : string) : option value :=
  match v with
  | VModule _ attrs | VObject attrs => assoc name attrs
  | _ => None
  end.

(** [v.get] exists on dicts only: on a module, a tensor or [None] the
    attribute lookup raises [AttributeError]. *)
Definition attribute_error (name : string) : exn :=
  Exception ("AttributeError: object has no attribute " +:+ name).

(** [model.eval()]: an [nn.Module] leaves training mode; anything else
    has no such method. *)
Definition eval (v : value) : exn + value :=
  match v with
  | VModule _ attrs => inr (VModule false attrs)
  | _ => inl (attribute_error "eval")
  end.

Definition in_training (v : value) : bool :=
  match v with VModule t _ => t | _ => false end.

End Py.

Export Py.

(** ** The world the scripts act on *)

Inductive node :=
| File (content : list Z)
| Dir.

(** Messages the scripts print that tell outcomes apart.  Banners and
    hints that are printed on every path are left out. *)
Inductive msg :=
| MDownloading (url : string)
| MProgress (downloaded total_size : Z)
| MDownloadComplete
| MAuthRequired
| MFileNotFound
| MHttpError (code : Z)
| MDownloadFailed (e : exn)
| MModelNotFound
| MManualInstructions (dest : string)
| MCloneFailed (stderr : string)
| MFoundModel (p : string)
| MCopiedTo (p : string)
| MNoModelInCheckpoint
| MModelIsDict
| MKeysFound (keys : list string)
| MFoundKey (k : string)
| MStateDictDirect
| MNoStateDict
| MArchitectureUnavailable
| MImportFailed (e : exn)
| MCopyingToExpected (p : string)
| MGeneratorCreated
| MErrorLoadingFromPath (e : exn)
| MLoadedStateDict
| MErrorCreatingGenerator (e : exn)
| MModelLoaded
| MErrorLoadingModel (e : exn)
| MOnnxSaved (p : string)
| MOnnxValid
| MVerificationWarning (e : exn)
| MQuantizedSaved (p : string)
| MQuantizationFailed (e : exn)
| MConversionComplete
| MErrorDuringConversion (e : exn)
| MMissingPackages (pkgs : list string)
| MSuccess
| MConversionFailed.

(** External calls, in the order the script makes them. *)
Inductive event :=
| EPrint (m : msg)
| EMkdir (p : string)
| EExists (p : string)
| EInput
| EUrlOpen (url : string)
| EOpenWb (p : string)
| EWrite (p : string) (chunk : list Z)
| EGitClone (dest : string)
| ECopy (src dst : string)
| ETorchLoad (p : string)
| EImportGenerators
| EGenInferenceDeep (weights_name : string)
| ELoadStateDict (strict : bool)
| EOnnxExport (model : value) (p : string) (opset : Z)
| EOnnxCheck (p : string)
| ESavePretrained (p : string)
| EFromPretrained (model_id : string)
| EQuantize (save_dir : string)
| EExit (code : Z).

Record world := World {
  fs : gmap string node;
  stdin : list string;
  trace : list event
}.

Definition emit (e : event) (w : world) : world :=
  World (fs w) (stdin w) (trace w ++ [e]).

Definition print (m : msg) (w : world) : world := emit (EPrint m) w.

Definition set_fs (f : gmap string node) (w : world) : world :=
  World f (stdin w) (trace w).

(** [Path(p).exists()]. *)
Definition path_exists (p : string) (w : world) : bool :=
  match fs w !! p with Some _ => true | None => false end.

(** What one [response.read(chunk_size)] does. *)
Inductive read_result :=
| Bytes (chunk : list Z)
| Raises (e : exn).

(** What [urllib.request.urlopen] does for a URL: it raises, or it yields
    a response with an optional Content-Length and a body delivered by
    successive reads (an exhausted list reads as the empty chunk). *)
Inductive url_result :=
| UrlRaises (e : exn)
| UrlResponse (content_length : option Z) (body : list read_result).

(** The collaborators. *)
Record env := Env {
  home : string;
  urlopen : string -> url_result;
  mkdir_parents : string -> option exn;
  open_wb : string -> option exn;
  git_clone : exn + list (string * node);
  torch_load : list Z -> exn + value;
  import_generators : bool -> gmap string node -> option exn;
  gen_inference_deep : nat -> gmap string node -> string -> exn + value;
  load_state_dict : value -> value -> bool -> exn + (list string * list string);
  onnx_export : value -> exn + list Z;
  onnx_check : list Z -> option exn;
  importable : string -> bool;
  hub_from_pretrained : string -> option exn;
  ort_export : string -> exn + list Z;
  ort_quantize : list Z -> exn + list Z;
  realesrganer : exn + value
}.

(** [Path(p).expanduser()]: a leading tilde becomes the home directory.
    Paths are kept as the scripts write them; [pathlib] normalises the
    probed path and the written path in the same way, so two paths name
    the same file exactly when their texts are equal. *)
Definition expanduser (E : env) (p : string) : string :=
  match p with
  | String "~" rest => home E +:+ rest
  | _ => p
  end.

(** [input()]: the next line of standard input, [EOFError] at its end. *)
Definition input (w : world) : (exn + string) * world :=
  let w := emit EInput w in
  match stdin w with
  | [] => (inl (Exception "EOFError"), w)
  | line :: rest => (inr line, World (fs w) rest (trace w))
  end.

(** [Path(p).parent]: the path without its last component. *)
Fixpoint drop_component (reversed : string) : string :=
  match reversed with
  | EmptyString => EmptyString
  | String "/" r => r
  | String _ r => drop_component r
  end.

Definition parent (p : string) : string :=
  String.rev (drop_component (String.rev p)).

(** [Path(p).mkdir(parents=True, exist_ok=True)]: the directory itself is
    recorded; its ancestors are not probed by any script. *)
Definition mkdir (E : env) (p : string) (w : world) : option exn * world :=
  let w := emit (EMkdir p) w in
  match mkdir_parents E p with
  | Some e => (Some e, w)
  | None =>
      (None, match fs w !! p with
             | None => set_fs (<[p := Dir]> (fs w)) w
             | Some _ => w
             end)
  end.

(** [shutil.copy2(src, dst)]. *)
Definition copy2 (src dst : string) (w : world) : option exn * world :=
  let w := emit (ECopy src dst) w in
  match fs w !! src with
  | Some (File content) => (None, set_fs (<[dst := File content]> (fs w)) w)
  | Some Dir => (Some (Exception "IsADirectoryError"), w)
  | None => (Some (Exception "FileNotFoundError"), w)
  end.

(** [subprocess.run(["git", "clone", url, dest], check=True, ...)]: on
    success the files of the clone are on disk. *)
Definition clone (E : env) (dest : string) (w : world) : option exn * world :=
  let w := emit (EGitClone dest) w in
  match git_clone E with
  | inl e => (Some e, w)
  | inr files =>
      (None, set_fs (foldr (fun kv m => <[kv.1 := kv.2]> m) (fs w) files) w)
  end.

(** [str.strip] and [str.lower] on ASCII text. *)
Definition is_space (c : ascii) : bool :=
  let n := Z.of_nat (nat_of_ascii c) in
  (9 <=? n) && (n <=? 13) || (28 <=? n) && (n <=? 32).

Fixpoint lstrip (s : string) : string :=
  match s with
  | String c r => if is_space c then lstrip r else s
  | EmptyString => EmptyString
  end.

Definition strip (s : string) : string :=
  String.rev (lstrip (String.rev (lstrip s))).

Definition lower_ascii (c : ascii) : ascii :=
  let n := nat_of_ascii c in
  if (65 <=? n)%nat && (n <=? 90)%nat then ascii_of_nat (n + 32) else c.

Fixpoint lower (s : string) : string :=
  match s with
  | String c r => String (lower_ascii c) (lower r)
  | EmptyString => EmptyString
  end.

Definition upper_ascii (c : ascii) : ascii :=
  let n := nat_of_ascii c in
  if (97 <=? n)%nat && (n <=? 122)%nat then ascii_of_nat (n - 32) else c.

(** [s.replace(a, b)] for single characters. *)
Fixpoint replace_char (a b : ascii) (s : string) : string :=
  match s with
  | String c r => String (if Ascii.eqb c a then b else c) (replace_char a b r)
  | EmptyString => EmptyString
  end.

(** [str.capitalize]. *)
Definition capitalize (s : string) : string :=
  match s with
  | String c r => String (upper_ascii c) (lower r)
  | EmptyString => EmptyString
  end.

(** [s.replace(old, '')] for a non-empty [old]: [skip] counts the
    characters of a match still to be dropped. *)
Fixpoint remove_all (old : string) (skip : nat) (s : string) : string :=
  match s with
  | EmptyString => EmptyString
  | String c r =>
      match skip with
      | S k => remove_all old k r
      | O =>
          if String.prefix old s
          then remove_all old (String.length old - 1) r
          else String c (remove_all old O r)
      end
  end.

(** ** Fetcher: [download_file] *)

Module Fetcher.

(** [f.write(chunk)] on the file opened at [p]. *)
Definition write_chunk (p : string) (chunk : list Z) (w : world) : world :=
  let old := match fs w !! p with Some (File c) => c | _ => [] end in
  emit (EWrite p chunk) (set_fs (<[p := File (old ++ chunk)]> (fs w)) w).

(** The [while True] loop: read, stop on the empty chunk, write, report
    progress.  An exception raised by a read leaves the loop with what was
    written so far on disk. *)
Fixpoint read_loop (p : string) (body : list read_result)
    (downloaded total_size : Z) (w : world) : option exn * world :=
  match body with
  | [] => (None, w)
  | Raises e :: _ => (Some e, w)
  | Bytes [] :: _ => (None, w)
  | Bytes chunk :: rest =>
      let w := write_chunk p chunk w in
      let downloaded := downloaded + Z.of_nat (length chunk) in
      let w := print (MProgress downloaded total_size) w in
      read_loop p rest downloaded total_size w
  end.

(** The body of the [try]: create the parent directory, open the URL,
    open the destination for writing (which truncates it), stream. *)
Definition download_body (E : env) (url output_path : string) (w : world)
    : option exn * world :=
  let w := print (MDownloading url) w in
  match mkdir E (parent output_path) w with
  | (Some e, w) => (Some e, w)
  | (None, w) =>
      let w := emit (EUrlOpen url) w in
      match urlopen E url with
      | UrlRaises e => (Some e, w)
      | UrlResponse content_length body =>
          let total_size := default 0 content_length in
          let w := emit (EOpenWb output_path) w in
          match open_wb E output_path with
          | Some e => (Some e, w)
          | None =>
              let w := set_fs (<[output_path := File []]> (fs w)) w in
              read_loop output_path body 0 total_size w
          end
      end
  end.

(** The two [except] clauses: [HTTPError] first, told apart by its code,
    then every other [Exception].  Each prints one line and returns
    [False]. *)
Definition failure_message (e : exn) : msg :=
  match e with
  | HTTPError code =>
      if code =? 401 then MAuthRequired
      else if code =? 404 then MFileNotFound
      else MHttpError code
  | _ => MDownloadFailed e
  end.

Definition download_file (E : env) (url output_path : string) (w : world)
    : bool * world :=
  match download_body E url output_path w with
  | (None, w) => (true, print MDownloadComplete w)
  | (Some e, w) => (false, print (failure_message e) w)
  end.

End Fetcher.

(** ** Artifact locator *)

Inductive located :=
| Located (model_path : string)
| NotFound.

Module Locator.

(** The [for path in possible_paths] loop: the first candidate that
    exists wins and ends the loop. *)
Fixpoint probe (E : env) (possible_paths : list string) (w : world)
    : option string * world :=
  match possible_paths with
  | [] => (None, w)
  | path :: rest =>
      let expanded := expanduser E path in
      let w := emit (EExists expanded) w in
      if path_exists expanded w then (Some expanded, w)
      else probe E rest w
  end.

(** The download loop: every URL is fetched to the same destination;
    the first success ends it. *)
Fixpoint try_urls (E : env) (urls : list string)
    (default_model_path : string) (w : world) : bool * world :=
  match urls with
  | [] => (false, w)
  | url :: rest =>
      match Fetcher.download_file E url default_model_path w with
      | (true, w) => (true, w)
      | (false, w) => try_urls E rest default_model_path w
      end
  end.

(** Lines 121-177 of the FBCNN, SCUNet and Zero-DCE scripts, which
    differ in their candidate lists only.  The operator is asked before
    anything is fetched. *)
Definition locate (E : env) (possible_paths : list string)
    (download_sources : list (string * string)) (default_model_path : string)
    (w : world) : (exn + located) * world :=
  match probe E possible_paths w with
  | (Some model_path, w) => (inr (Located model_path), w)
  | (None, w) =>
      let w := print MModelNotFound w in
      match input w with
      | (inl e, w) => (inl e, w)
      | (inr answer, w) =>
          let download_choice := lower (strip answer) in
          if String.eqb download_choice "y" then
            match try_urls E (map snd download_sources) default_model_path w with
            | (true, w) => (inr (Located default_model_path), w)
            | (false, w) =>
                (inr NotFound, print (MManualInstructions default_model_path) w)
            end
          else (inr NotFound, print (MManualInstructions default_model_path) w)
      end
  end.

End Locator.

(** ** Steps every script repeats *)

Module Pipeline.

Definition path_join (a b : string) : string := a +:+ "/" +:+ b.

(** [check_dependencies]: import each required package, collect the
    install names of those that fail, succeed when none did. *)
Definition check_dependencies (E : env) (required_packages : list (string * string))
    (w : world) : bool * world :=
  let missing :=
    map snd (filter (fun p => negb (importable E (fst p))) required_packages) in
  match missing with
  | [] => (true, w)
  | _ => (false, print (MMissingPackages missing) w)
  end.

(** [torch.load(model_path, map_location='cpu')]: what it returns depends
    on the bytes of the file. *)
Definition load (E : env) (model_path : string) (w : world) : (exn + value) * world :=
  let w := emit (ETorchLoad model_path) w in
  match fs w !! model_path with
  | Some (File content) => (torch_load E content, w)
  | Some Dir => (inl (Exception "IsADirectoryError"), w)
  | None => (inl (Exception "FileNotFoundError"), w)
  end.

(** [checkpoint.get(k1, checkpoint.get(k2, checkpoint.get(k3, None)))]:
    the method lookup comes first and fails on anything but a dict. *)
Definition find_model (checkpoint : value) (keys : list string) : exn + value :=
  match checkpoint with
  | VDict items => inr (fold_right (fun k d => dict_get items k d) VNone keys)
  | _ => inl (attribute_error "get")
  end.

(** Step 3: [torch.onnx.export(model, dummy_input, path, opset_version=11,
    ...)].  On success the graph is on disk. *)
Definition export_onnx (E : env) (model : value) (onnx_model_path : string)
    (opset : Z) (w : world) : option exn * world :=
  let w := emit (EOnnxExport model onnx_model_path opset) w in
  match onnx_export E model with
  | inl e => (Some e, w)
  | inr graph =>
      (None, print (MOnnxSaved onnx_model_path)
               (set_fs (<[onnx_model_path := File graph]> (fs w)) w))
  end.

(** Step 4: load and check the graph inside its own [try]; a failure is
    printed as a warning and nothing else happens. *)
Definition verify_onnx (E : env) (onnx_model_path : string) (w : world) : world :=
  let w := emit (EOnnxCheck onnx_model_path) w in
  let r := match fs w !! onnx_model_path with
           | Some (File graph) => onnx_check E graph
           | _ => Some (Exception "FileNotFoundError")
           end in
  match r with
  | None => print MOnnxValid w
  | Some e => print (MVerificationWarning e) w
  end.

(** The inner [try] of the FBCNN, SCUNet and Zero-DCE scripts (lines
    182-203 of the first): load, look under the conventional keys, reload
    as a direct model when nothing was found, give up on a dict, switch to
    evaluation mode.  [None] is the early [return False]. *)
Definition load_model_body (E : env) (keys : list string) (model_path : string)
    (w : world) : (exn + option value) * world :=
  match load E model_path w with
  | (inl e, w) => (inl e, w)
  | (inr checkpoint, w) =>
      match find_model checkpoint keys with
      | inl e => (inl e, w)
      | inr model =>
          let '(r, w) :=
            match model with
            | VNone => load E model_path (print MNoModelInCheckpoint w)
            | _ => (inr model, w)
            end in
          match r with
          | inl e => (inl e, w)
          | inr model =>
              if is_dict model then (inr None, print MModelIsDict w)
              else
                match eval model with
                | inl e => (inl e, w)
                | inr model => (inr (Some model), print MModelLoaded w)
                end
          end
      end
  end.

Definition load_model (E : env) (keys : list string) (model_path : string)
    (w : world) : option value * world :=
  match load_model_body E keys model_path w with
  | (inl e, w) => (None, print (MErrorLoadingModel e) w)
  | (inr r, w) => (r, w)
  end.

(** Steps 2 to 4 and the final [return True]; an exception of the export
    reaches the outer handler. *)
Definition export_and_verify (E : env) (model : value) (onnx_dir : string)
    (w : world) : (exn + bool) * world :=
  let onnx_model_path := path_join onnx_dir "model.onnx" in
  match export_onnx E model onnx_model_path 11 w with
  | (Some e, w) => (inl e, w)
  | (None, w) =>
      let w := verify_onnx E onnx_model_path w in
      (inr true, print MConversionComplete w)
  end.

(** The outer [except Exception]: print and return [False]. *)
Definition outer_handler (r : (exn + bool) * world) : bool * world :=
  match r with
  | (inl e, w) => (false, print (MErrorDuringConversion e) w)
  | (inr b, w) => (b, w)
  end.

(** The two [mkdir] calls that precede the [try]: an exception here
    leaves the function. *)
Definition make_output_dirs (E : env) (output_dir : string) (w : world)
    : option exn * world :=
  match mkdir E output_dir w with
  | (Some e, w) => (Some e, w)
  | (None, w) => mkdir E (path_join output_dir "onnx") w
  end.

(** The end of every [main]: exit code 0 after a [True], 1 after a
    [False]; an exception that left the conversion ends the interpreter
    with code 1. *)
Definition exit_with (r : (exn + bool) * world) : Z * world :=
  match r with
  | (inl e, w) => (1, emit (EExit 1) w)
  | (inr true, w) => (0, emit (EExit 0) (print MSuccess w))
  | (inr false, w) => (1, emit (EExit 1) (print MConversionFailed w))
  end.

Definition torch_packages : list (string * string) :=
  [("torch", "torch"); ("onnx", "onnx"); ("onnxruntime", "onnxruntime")]%string.

End Pipeline.

(** ** convert-fbcnn-to-onnx.py *)

Module FBCNN.
Import Pipeline.

Definition model_file (quality_factor : Z) : string :=
  "FBCNN_q" +:+ pretty quality_factor +:+ ".pth".

Definition possible_paths (quality_factor : Z) : list string :=
  [ "./models/fbcnn/" +:+ model_file quality_factor;
    "./" +:+ model_file quality_factor;
    "~/.cache/fbcnn/" +:+ model_file quality_factor ].

Definition default_model_path (quality_factor : Z) : string :=
  "./models/fbcnn/" +:+ model_file quality_factor.

Definition download_sources (quality_factor : Z) : list (string * string) :=
  [ ("GitHub Releases",
     "https://github.com/jiaxi-jiang/FBCNN/releases/download/v1.0/" +:+ model_file quality_factor);
    ("GitHub Raw",
     "https://raw.githubusercontent.com/jiaxi-jiang/FBCNN/main/" +:+ model_file quality_factor);
    ("Alternative Source",
     "https://github.com/jiaxi-jiang/FBCNN/releases/latest/download/" +:+ model_file quality_factor) ].

Definition keys : list string := ["model"; "net"; "FBCNN"]%string.

Definition locate (E : env) (quality_factor : Z) (w : world) : (exn + located) * world :=
  Locator.locate E (possible_paths quality_factor) (download_sources quality_factor)
    (default_model_path quality_factor) w.

Definition convert_body (E : env) (model_path : option string) (quality_factor : Z)
    (onnx_dir : string) (w : world) : (exn + bool) * world :=
  let '(r, w) :=
    match model_path with
    | Some p => (inr (Located p), w)
    | None => locate E quality_factor w
    end in
  match r with
  | inl e => (inl e, w)
  | inr NotFound => (inr false, w)
  | inr (Located model_path) =>
      match load_model E keys model_path w with
      | (None, w) => (inr false, w)
      | (Some model, w) => export_and_verify E model onnx_dir w
      end
  end.

Definition convert_fbcnn_to_onnx (E : env) (model_path : option string)
    (quality_factor : Z) (output_dir : option string) (w : world)
    : (exn + bool) * world :=
  let output_dir :=
    default ("./models/fbcnn_q" +:+ pretty quality_factor) output_dir in
  match make_output_dirs E output_dir w with
  | (Some e, w) => (inl e, w)
  | (None, w) =>
      let '(b, w) :=
        outer_handler
          (convert_body E model_path quality_factor (path_join output_dir "onnx") w) in
      (inr b, w)
  end.

Definition main (E : env) (model_path : option string) (quality : Z) (w : world)
    : Z * world :=
  match check_dependencies E torch_packages w with
  | (false, w) => (1, emit (EExit 1) w)
  | (true, w) => exit_with (convert_fbcnn_to_onnx E model_path quality None w)
  end.

End FBCNN.

(** ** convert-deoldify-to-onnx.py *)

Module DeOldify.
Import Pipeline.

Definition possible_paths (variant : string) : list string :=
  [ "./models/deoldify/" +:+ variant +:+ ".pth";
    "./deoldify_" +:+ variant +:+ ".pth";
    "~/.cache/deoldify/" +:+ variant +:+ ".pth" ].

Definition default_model_path (variant : string) : string :=
  "./models/deoldify/" +:+ variant +:+ ".pth".

Definition deoldify_repo : string := "./DeOldify".

Definition model_files : list (string * list string) :=
  [ ("backbone-lite", ["ColorizeArtistic_gen.pth"]);
    ("stable", ["ColorizeStable_gen.pth"]);
    ("artistic", ["ColorizeArtistic_gen.pth"]) ]%string.

(** [model_files[variant][0]] raises [KeyError] on an unknown variant. *)
Definition download_urls (variant : string) : exn + list string :=
  match assoc variant model_files with
  | Some (file :: _) =>
      inr [ "https://data.deepai.org/deoldify/" +:+ file;
            "https://github.com/jantic/DeOldify/releases/download/v1.0/" +:+ file ]
  | Some [] => inl (Exception "IndexError")
  | None => inl (Exception "KeyError")
  end.

Definition model_search_paths (E : env) : list string :=
  [ path_join deoldify_repo "models";
    path_join deoldify_repo "checkpoints";
    path_join (path_join (home E) ".cache") "deoldify" ].

Definition model_name_map : list (string * list string) :=
  [ ("backbone-lite", ["ColorizeArtistic_gen.pth"; "backbone-lite.pth"]);
    ("stable", ["ColorizeStable_gen.pth"; "stable.pth"]);
    ("artistic", ["ColorizeArtistic_gen.pth"; "artistic.pth"]) ]%string.

(** The inner loop of step 3: the first name that exists in one
    directory. *)
Fixpoint search_names (search_path : string) (names : list string) (w : world)
    : option string * world :=
  match names with
  | [] => (None, w)
  | model_name :: rest =>
      let potential_model := path_join search_path model_name in
      let w := emit (EExists potential_model) w in
      if path_exists potential_model w
      then (Some potential_model, print (MFoundModel potential_model) w)
      else search_names search_path rest w
  end.

(** The outer loop of step 3: directories that exist, in order. *)
Fixpoint search_dirs (search_paths : list string) (names : list string) (w : world)
    : option string * world :=
  match search_paths with
  | [] => (None, w)
  | search_path :: rest =>
      let w := emit (EExists search_path) w in
      if path_exists search_path w then
        match search_names search_path names w with
        | (Some found_model, w) => (Some found_model, w)
        | (None, w) => search_dirs rest names w
        end
      else search_dirs rest names w
  end.

(** Lines 140-257.  The download is not asked for ([download_choice] is
    the constant ['y']): clone the repository when it is absent, fetch the
    known URLs, and when none delivers search the repository and the
    cache for a model file and copy it to the default path. *)
Definition locate (E : env) (variant : string) (w : world) : (exn + located) * world :=
  match Locator.probe E (possible_paths variant) w with
  | (Some model_path, w) => (inr (Located model_path), w)
  | (None, w) =>
      let w := print MModelNotFound w in
      let w := emit (EExists deoldify_repo) w in
      let '(cloned, w) :=
        if path_exists deoldify_repo w then (None, w) else clone E deoldify_repo w in
      match cloned with
      | Some (CalledProcessError stderr) => (inr NotFound, print (MCloneFailed stderr) w)
      | Some e => (inl e, w)
      | None =>
          match download_urls variant with
          | inl e => (inl e, w)
          | inr urls =>
              match Locator.try_urls E urls (default_model_path variant) w with
              | (true, w) => (inr (Located (default_model_path variant)), w)
              | (false, w) =>
                  match search_dirs (model_search_paths E)
                          (default [] (assoc variant model_name_map)) w with
                  | (Some found_model, w) =>
                      match mkdir E (parent (default_model_path variant)) w with
                      | (Some e, w) => (inl e, w)
                      | (None, w) =>
                          match copy2 found_model (default_model_path variant) w with
                          | (Some e, w) => (inl e, w)
                          | (None, w) =>
                              (inr (Located (default_model_path variant)),
                               print (MCopiedTo (default_model_path variant)) w)
                          end
                      end
                  | (None, w) =>
                      (inr NotFound,
                       print (MManualInstructions (default_model_path variant)) w)
                  end
              end
          end
      end
  end.

(** Lines 277-286: where the weights are looked for in a dict. *)
Definition extract_state_dict (items : list (string * value)) (w : world)
    : option value * world :=
  if dict_mem items "generator" then
    (Some (dict_get items "generator" VNone), print (MFoundKey "generator") w)
  else if dict_mem items "state_dict" then
    (Some (dict_get items "state_dict" VNone), print (MFoundKey "state_dict") w)
  else if forallb is_tensor_or_dict (firstn 5 (map snd items)) then
    (Some (VDict items), print MStateDictDirect w)
  else (None, w).

(** Lines 293-329: import the generator factories, cloning the
    repository and trying once more when the import fails.  [inr false]
    is the early [return False]. *)
Definition ensure_generators (E : env) (w : world) : (exn + bool) * world :=
  let w := emit EImportGenerators w in
  match import_generators E false (fs w) with
  | None => (inr true, w)
  | Some (ImportError _) =>
      let w := print MArchitectureUnavailable w in
      let w := emit (EExists deoldify_repo) w in
      let w := if path_exists deoldify_repo w then w
               else snd (clone E deoldify_repo w) in
      let w := emit EImportGenerators w in
      match import_generators E true (fs w) with
      | None => (inr true, w)
      | Some (ImportError m) => (inr false, print (MImportFailed (ImportError m)) w)
      | Some e => (inl e, w)
      end
  | Some e => (inl e, w)
  end.

Definition actual_model_type : string := "artistic".

Definition expected_weight_name : string :=
  "Colorize" +:+ capitalize actual_model_type +:+ "_gen.pth".

Definition weight_name : string := remove_all ".pth" 0 expected_weight_name.

(** Lines 333-373, the body of the [try] that builds the generator:
    whatever [variant] was asked for, the file is copied to the place of
    the artistic weights and the deep generator is built from it.  When
    that raises, the generator is built a second time and [state_dict] is
    loaded into it with [strict=False]; what the loader returns is not
    bound to a name. *)
Definition create_generator_body (E : env) (model_path : string)
    (state_dict : value) (w : world) : (exn + value) * world :=
  let deoldify_models_dir := "./DeOldify/models" in
  match mkdir E deoldify_models_dir w with
  | (Some e, w) => (inl e, w)
  | (None, w) =>
      let expected_weight_path := path_join deoldify_models_dir expected_weight_name in
      let w := emit (EExists expected_weight_path) w in
      let '(copied, w) :=
        if path_exists expected_weight_path w then (None, w)
        else copy2 model_path expected_weight_path
               (print (MCopyingToExpected expected_weight_path) w) in
      match copied with
      | Some e => (inl e, w)
      | None =>
          let w := emit (EGenInferenceDeep weight_name) w in
          match gen_inference_deep E 0 (fs w) weight_name with
          | inr model => (inr model, print MGeneratorCreated w)
          | inl e1 =>
              let w := print (MErrorLoadingFromPath e1) w in
              let w := emit (EGenInferenceDeep "ColorizeArtistic_gen") w in
              match gen_inference_deep E 1 (fs w) "ColorizeArtistic_gen" with
              | inl e => (inl e, w)
              | inr model =>
                  match getattr model "model" with
                  | None => (inl (attribute_error "model"), w)
                  | Some net =>
                      let w := emit (ELoadStateDict false) w in
                      match load_state_dict E net state_dict false with
                      | inl e => (inl e, w)
                      | inr _ => (inr model, print MLoadedStateDict w)
                      end
                  end
              end
          end
      end
  end.

(** Lines 271-379: what is done when the loaded object is a dict.
    [inr None] is an early [return False]. *)
Definition resolve_dict (E : env) (model_path : string)
    (items : list (string * value)) (w : world) : (exn + option value) * world :=
  let keys := map fst items in
  let w := print (MKeysFound (if (10 <? length keys)%nat then firstn 10 keys else keys)) w in
  match extract_state_dict items w with
  | (None, w) | (Some VNone, w) => (inr None, print MNoStateDict w)
  | (Some state_dict, w) =>
      match ensure_generators E w with
      | (inl e, w) => (inl e, w)
      | (inr false, w) => (inr None, w)
      | (inr true, w) =>
          match create_generator_body E model_path state_dict w with
          | (inl e, w) => (inr None, print (MErrorCreatingGenerator e) w)
          | (inr model, w) => (inr (Some model), w)
          end
      end
  end.

(** Lines 381-385: a learner is replaced by the network it wraps. *)
Definition unwrap (model : value) : value :=
  if hasattr model "model" then default model (getattr model "model")
  else if hasattr model "generator" then default model (getattr model "generator")
  else model.

(** Lines 262-388, the body of the inner [try]. *)
Definition load_model_body (E : env) (model_path : string) (w : world)
    : (exn + option value) * world :=
  match load E model_path w with
  | (inl e, w) => (inl e, w)
  | (inr checkpoint, w) =>
      match find_model checkpoint ["model"; "net"; "generator"]%string with
      | inl e => (inl e, w)
      | inr model =>
          let '(r, w) :=
            match model with
            | VNone => load E model_path (print MNoModelInCheckpoint w)
            | _ => (inr model, w)
            end in
          match r with
          | inl e => (inl e, w)
          | inr model =>
              let '(r, w) :=
                match model with
                | VDict items => resolve_dict E model_path items (print MModelIsDict w)
                | _ => (inr (Some model), w)
                end in
              match r with
              | inl e => (inl e, w)
              | inr None => (inr None, w)
              | inr (Some model) =>
                  match eval (unwrap model) with
                  | inl e => (inl e, w)
                  | inr model => (inr (Some model), print MModelLoaded w)
                  end
              end
          end
      end
  end.

Definition load_model (E : env) (model_path : string) (w : world)
    : option value * world :=
  match load_model_body E model_path w with
  | (inl e, w) => (None, print (MErrorLoadingModel e) w)
  | (inr r, w) => (r, w)
  end.

Definition convert_body (E : env) (model_path : option string) (variant : string)
    (onnx_dir : string) (w : world) : (exn + bool) * world :=
  let '(r, w) :=
    match model_path with
    | Some p => (inr (Located p), w)
    | None => locate E variant w
    end in
  match r with
  | inl e => (inl e, w)
  | inr NotFound => (inr false, w)
  | inr (Located model_path) =>
      match load_model E model_path w with
      | (None, w) => (inr false, w)
      | (Some model, w) => export_and_verify E model onnx_dir w
      end
  end.

Definition convert_deoldify_to_onnx (E : env) (model_path : option string)
    (variant : string) (output_dir : option string) (w : world)
    : (exn + bool) * world :=
  let output_dir := default ("./models/deoldify_" +:+ variant) output_dir in
  match make_output_dirs E output_dir w with
  | (Some e, w) => (inl e, w)
  | (None, w) =>
      let '(b, w) :=
        outer_handler
          (convert_body E model_path variant (path_join output_dir "onnx") w) in
      (inr b, w)
  end.

Definition main (E : env) (model_path : option string) (variant : string) (w : world)
    : Z * world :=
  match check_dependencies E torch_packages w with
  | (false, w) => (1, emit (EExit 1) w)
  | (true, w) => exit_with (convert_deoldify_to_onnx E model_path variant None w)
  end.

End DeOldify.

(** ** convert-realesrgan-to-onnx.py *)

Module RealESRGAN.
Import Pipeline.

(** Lines 70-142: build the upsampler, take its network, switch it to
    evaluation mode, export, verify. *)
Definition convert_body (E : env) (onnx_dir : string) (w : world)
    : (exn + bool) * world :=
  match realesrganer E with
  | inl e => (inl e, w)
  | inr upsampler =>
      match getattr upsampler "model" with
      | None => (inl (attribute_error "model"), w)
      | Some model =>
          match eval model with
          | inl e => (inl e, w)
          | inr model => export_and_verify E model onnx_dir (print MModelLoaded w)
          end
      end
  end.

Definition convert_realesrgan_to_onnx (E : env) (model_name : string)
    (output_dir : option string) (w : world) : (exn + bool) * world :=
  if negb (importable E "realesrgan") then (inr false, print (MMissingPackages ["realesrgan"%string]) w)
  else
    let output_dir := default ("./models/realesrgan-" +:+ lower model_name) output_dir in
    match make_output_dirs E output_dir w with
    | (Some e, w) => (inl e, w)
    | (None, w) =>
        let '(b, w) := outer_handler (convert_body E (path_join output_dir "onnx") w) in
        (inr b, w)
    end.

End RealESRGAN.

(** ** convert-ai-detector-to-onnx.py *)

Module AIDetector.
Import Pipeline.

(** Step 3, lines 102-120: quantize inside a [try]; a failure prints a
    warning. *)
Definition quantize_step (E : env) (onnx_dir : string) (w : world) : world :=
  let w := emit (EQuantize onnx_dir) w in
  let r := match fs w !! path_join onnx_dir "model.onnx" with
           | Some (File graph) => ort_quantize E graph
           | _ => inl (Exception "FileNotFoundError")
           end in
  match r with
  | inr quantized =>
      print (MQuantizedSaved (path_join onnx_dir "model_quantized.onnx"))
        (set_fs (<[path_join onnx_dir "model_quantized.onnx" := File quantized]> (fs w)) w)
  | inl e => print (MQuantizationFailed e) w
  end.

(** Lines 75-138, the body of the [try]. *)
Definition convert_body (E : env) (model_id output_path : string) (quantize : bool)
    (w : world) : (exn + bool) * world :=
  let onnx_dir := path_join output_path "onnx" in
  let w := emit (EFromPretrained model_id) w in
  match hub_from_pretrained E model_id with
  | Some e => (inl e, w)
  | None =>
      let w := emit (ESavePretrained output_path) w in
      match ort_export E model_id with
      | inl e => (inl e, w)
      | inr graph =>
          let onnx_model_path := path_join onnx_dir "model.onnx" in
          let w := emit (ESavePretrained onnx_dir) w in
          let w := set_fs (<[onnx_model_path := File graph]> (fs w)) w in
          let w := print (MOnnxSaved onnx_model_path) w in
          let w := if quantize then quantize_step E onnx_dir w else w in
          (inr true, print MConversionComplete w)
      end
  end.

Definition convert_model_to_onnx (E : env) (model_id : string)
    (output_dir : option string) (quantize : bool) (w : world)
    : (exn + bool) * world :=
  if negb (importable E "optimum") then (inr false, print (MMissingPackages ["optimum[onnxruntime]"%string]) w)
  else
    let output_dir := default ("./models/" +:+ replace_char "/" "_" model_id) output_dir in
    match make_output_dirs E output_dir w with
    | (Some e, w) => (inl e, w)
    | (None, w) =>
        let '(b, w) := outer_handler (convert_body E model_id output_dir quantize w) in
        (inr b, w)
    end.

End AIDetector.

(** * What the specification says, and how to read a run *)

Module Contract.
Import Fetcher.

(** The URLs [download_file] was called on, in order. *)
Definition attempts (t : list event) : list string :=
  omap (fun e => match e with EPrint (MDownloading u) => Some u | _ => None end) t.

(** The models handed to [torch.onnx.export], in order. *)
Definition exported (t : list event) : list value :=
  omap (fun e => match e with EOnnxExport m _ _ => Some m | _ => None end) t.

Definition printed (t : list event) : list msg :=
  omap (fun e => match e with EPrint m => Some m | _ => None end) t.

(** The failure kinds of section 4.2. *)
Inductive fetch_error :=
| Unauthorized
| FetchNotFound
| HttpError (code : Z)
| TransportError.

(** The kind by the words of the specification: 401, 404, any other
    HTTP status, anything that is not an HTTP error. *)
Definition classify (e : exn) : fetch_error :=
  match e with
  | HTTPError 401 => Unauthorized
  | HTTPError 404 => FetchNotFound
  | HTTPError code => HttpError code
  | _ => TransportError
  end.

(** The kind a printed failure line stands for. *)
Definition kind_of_message (m : msg) : option fetch_error :=
  match m with
  | MAuthRequired => Some Unauthorized
  | MFileNotFound => Some FetchNotFound
  | MHttpError code => Some (HttpError code)
  | MDownloadFailed _ => Some TransportError
  | _ => None
  end.

(** The first exception a read of the body raises, if any. *)
Fixpoint body_error (body : list read_result) : option exn :=
  match body with
  | [] => None
  | Raises e :: _ => Some e
  | Bytes [] :: _ => None
  | Bytes _ :: rest => body_error rest
  end.

(** What goes wrong when [url] is fetched to [output_path], read off the
    collaborators alone. *)
Definition fetch_error_of (E : env) (url output_path : string) : option exn :=
  match mkdir_parents E (parent output_path) with
  | Some e => Some e
  | None =>
      match urlopen E url with
      | UrlRaises e => Some e
      | UrlResponse _ body =>
          match open_wb E output_path with
          | Some e => Some e
          | None => body_error body
          end
      end
  end.

Definition fetch_ok (E : env) (output_path url : string) : bool :=
  match fetch_error_of E url output_path with None => true | Some _ => false end.

(** The remote candidates tried when they are taken in order up to the
    first that delivers. *)
Fixpoint through_first (ok : string -> bool) (candidates : list string) : list string :=
  match candidates with
  | [] => []
  | c :: rest => if ok c then [c] else c :: through_first ok rest
  end.



(** Events every path may emit; the four kinds left out are the ones the
    properties below are about. *)
Definition routine (e : event) : bool :=
  match e with
  | EOnnxExport _ _ _ | EGenInferenceDeep _ | ELoadStateDict _
  | EPrint MConversionComplete => false
  | _ => true
  end.

(** [Q] holds of every event of the trace. *)
Definition throughout (Q : event -> Prop) (w : world) : Prop := Forall Q (trace w).

(** A conversion ends with [True] right after it printed the closing
    line, and in no other way. *)
Definition ends_well (Q : event -> Prop) (r : (exn + bool) * world) : Prop :=
  match r with
  | (inr true, w') => exists w'', w' = print MConversionComplete w'' /\ throughout Q w''
  | (_, w') => throughout Q w'
  end.

(** How the tensor runtime is called: a model is exported in evaluation
    mode, the generator factory is asked for the artistic weights, weights
    are loaded with [strict=False]. *)
Definition runtime_call (e : event) : Prop :=
  match e with
  | EOnnxExport model _ _ => in_training model = false
  | EGenInferenceDeep weights_name => weights_name = "ColorizeArtistic_gen"%string
  | ELoadStateDict strict => strict = false
  | _ => True
  end.

(** The closing line has not been printed. *)
Definition not_done (e : event) : Prop := e <> EPrint MConversionComplete.

(** Step 3 of section 4.3 in its own words: a majority of the sampled
    values are tensors or nested mappings. *)
Definition majority_tensor_like (values : list value) : bool :=
  let sample := firstn 5 values in
  (length sample <? 2 * length (filter (fun v => is_tensor_or_dict v = true) sample))%nat.

(** The text a printed line carries. *)
Definition exn_text (e : exn) : string :=
  match e with
  | HTTPError code => pretty code
  | CalledProcessError text | ImportError text | Exception text => text
  end.

Definition payload (m : msg) : list string :=
  match m with
  | MDownloading url => [url]
  | MHttpError code => [pretty code]
  | MManualInstructions p | MFoundModel p | MCopiedTo p | MCopyingToExpected p
  | MOnnxSaved p | MQuantizedSaved p => [p]
  | MCloneFailed text => [text]
  | MKeysFound keys => keys
  | MFoundKey k => [k]
  | MDownloadFailed e | MImportFailed e | MErrorLoadingFromPath e
  | MErrorCreatingGenerator e | MErrorLoadingModel e | MVerificationWarning e
  | MQuantizationFailed e | MErrorDuringConversion e => [exn_text e]
  | MMissingPackages pkgs => pkgs
  | _ => []
  end.

Definition occurs_in (k text : string) : bool :=
  match String.index 0 k text with Some _ => true | None => false end.

(** A key is reported when some printed line carries its name. *)
Definition reported (k : string) (t : list event) : bool :=
  existsb (fun m => existsb (occurs_in k) (payload m)) (printed t).

End Contract.

Export Contract.

(** * Concrete collaborators for examples *)

Module Scenario.

(** A machine with nothing on it: every URL answers 404, files are
    written without trouble, nothing can be cloned or loaded. *)
Definition base : env :=
  Env "/home/user"
    (fun _ => UrlRaises (HTTPError 404))
    (fun _ => None)
    (fun _ => None)
    (inl (CalledProcessError "fatal: unable to access"))
    (fun _ => inl (Exception "UnpicklingError"))
    (fun _ _ => None)
    (fun _ _ _ => inl (Exception "weights not found"))
    (fun _ _ _ => inr ([], []))
    (fun _ => inr [79; 78; 78; 88])
    (fun _ => None)
    (fun _ => true)
    (fun _ => None)
    (fun _ => inr [79; 78; 78; 88])
    (fun _ => inr [81])
    (inl (Exception "offline")).

Definition with_urlopen (f : string -> url_result) (E : env) : env :=
  Env (home E) f (mkdir_parents E) (open_wb E) (git_clone E) (torch_load E)
    (import_generators E) (gen_inference_deep E) (load_state_dict E)
    (onnx_export E) (onnx_check E) (importable E) (hub_from_pretrained E)
    (ort_export E) (ort_quantize E) (realesrganer E).

Definition with_torch_load (f : list Z -> exn + value) (E : env) : env :=
  Env (home E) (urlopen E) (mkdir_parents E) (open_wb E) (git_clone E) f
    (import_generators E) (gen_inference_deep E) (load_state_dict E)
    (onnx_export E) (onnx_check E) (importable E) (hub_from_pretrained E)
    (ort_export E) (ort_quantize E) (realesrganer E).

Definition with_gen_inference_deep
    (f : nat -> gmap string node -> string -> exn + value) (E : env) : env :=
  Env (home E) (urlopen E) (mkdir_parents E) (open_wb E) (git_clone E) (torch_load E)
    (import_generators E) f (load_state_dict E)
    (onnx_export E) (onnx_check E) (importable E) (hub_from_pretrained E)
    (ort_export E) (ort_quantize E) (realesrganer E).

Definition with_load_state_dict
    (f : value -> value -> bool -> exn + (list string * list string)) (E : env) : env :=
  Env (home E) (urlopen E) (mkdir_parents E) (open_wb E) (git_clone E) (torch_load E)
    (import_generators E) (gen_inference_deep E) f
    (onnx_export E) (onnx_check E) (importable E) (hub_from_pretrained E)
    (ort_export E) (ort_quantize E) (realesrganer E).

Definition with_onnx_check (f : list Z -> option exn) (E : env) : env :=
  Env (home E) (urlopen E) (mkdir_parents E) (open_wb E) (git_clone E) (torch_load E)
    (import_generators E) (gen_inference_deep E) (load_state_dict E)
    (onnx_export E) f (importable E) (hub_from_pretrained E)
    (ort_export E) (ort_quantize E) (realesrganer E).

Definition with_ort_quantize (f : list Z -> exn + list Z) (E : env) : env :=
  Env (home E) (urlopen E) (mkdir_parents E) (open_wb E) (git_clone E) (torch_load E)
    (import_generators E) (gen_inference_deep E) (load_state_dict E)
    (onnx_export E) (onnx_check E) (importable E) (hub_from_pretrained E)
    (ort_export E) f (realesrganer E).

Definition with_realesrganer (r : exn + value) (E : env) : env :=
  Env (home E) (urlopen E) (mkdir_parents E) (open_wb E) (git_clone E) (torch_load E)
    (import_generators E) (gen_inference_deep E) (load_state_dict E)
    (onnx_export E) (onnx_check E) (importable E) (hub_from_pretrained E)
    (ort_export E) (ort_quantize E) r.

(** An empty disk, nothing typed, nothing done yet. *)
Definition nothing : world := World ∅ [] [].

Definition on_disk (files : list (string * node)) (answers : list string) : world :=
  World (list_to_map files) answers [].

(** Scenario A of the specification: the first URL answers 404, the
    second delivers three bytes. *)
Definition second_delivers : env :=
  with_urlopen
    (fun url => if String.eqb url "https://b.example/m.pth"
                then UrlResponse (Some 3) [Bytes [1; 2; 3]]
                else UrlRaises (HTTPError 404))
    base.


(** A checkpoint file that holds a module, still in training mode, under
    the key model. *)
Definition module_under_key : env :=
  with_torch_load (fun _ => inr (VDict [("model", VModule true [])]%string)) base.

(** A checkpoint file that is the pickled module itself. *)
Definition module_itself : env :=
  with_torch_load (fun _ => inr (VModule true [])) base.

Definition checkpoint_on_disk : world :=
  on_disk [("./m.pth", File [80; 75])]%string [].

(** The graph checker rejects whatever it is given. *)
Definition checker_rejects : env :=
  with_onnx_check (fun _ => Some (Exception "invalid graph")) module_under_key.

(** The quantizer fails. *)
Definition quantizer_fails : env :=
  with_ort_quantize (fun _ => inl (Exception "unsupported operator")) base.

(** A state dict under the key state_dict whose one key the architecture
    does not know, a factory that fails on its first call and then
    delivers a learner, and a loader that tells which keys did not
    match. *)
Definition mismatched_keys : env :=
  with_load_state_dict
    (fun _ _ strict =>
       if strict then inl (Exception "Error(s) in loading state_dict")
       else inr (["layers.0.weight"], ["unexpected.weight"])%string)
    (with_gen_inference_deep
       (fun call _ _ =>
          match call with
          | O => inl (Exception "size mismatch")
          | _ => inr (VObject [("model", VModule true [])]%string)
          end)
       (with_torch_load
          (fun _ => inr (VDict [("state_dict", VDict [("unexpected.weight", VTensor)])]%string))
          base)).

(** Two tensors and an epoch counter: no conventional key, a majority of
    tensors, but not tensors only. *)
Definition mostly_tensors : list (string * value) :=
  [("conv.weight", VTensor); ("conv.bias", VTensor); ("epoch", VInt 5)]%string.

Definition mostly_tensors_checkpoint : env :=
  with_torch_load (fun _ => inr (VDict mostly_tensors)) base.

(** The stable weights can be downloaded; the file holds a state dict
    under the key model; the factory builds a learner from whatever file
    it finds. *)
Definition stable_available : env :=
  with_gen_inference_deep
    (fun _ _ _ => inr (VObject [("model", VModule true [])]%string))
    (with_torch_load
       (fun _ => inr (VDict [("model", VDict [("layers.0.weight", VTensor)]);
                             ("opt", VDict [])]%string))
       (with_urlopen
          (fun url =>
             if String.eqb url "https://data.deepai.org/deoldify/ColorizeStable_gen.pth"
             then UrlResponse (Some 2) [Bytes [83; 84]]
             else UrlRaises (HTTPError 404))
          base)).

Definition checkout_only : world := on_disk [("./DeOldify", Dir)]%string [].

End Scenario.

(** * Further readings of a run *)

Module Observations.

(** The bytes a body delivers before its first empty chunk. *)
Fixpoint delivered (body : list read_result) : list Z :=
  match body with
  | Bytes (b :: chunk) :: rest => (b :: chunk) ++ delivered rest
  | _ => []
  end.


(** The first model file of a directory-major walk over the directories
    that exist. *)
Definition search_spec (path_is_there : string -> bool)
    (search_paths names : list string) : option string :=
  List.find path_is_there
    (flat_map (fun d => if path_is_there d
                        then map (Pipeline.path_join d) names else [])
       search_paths).

End Observations.

Export Observations.

(** * The remaining conversion scripts *)

(** ** convert-scunet-to-onnx.py *)

Module SCUNet.
Import Pipeline.

Definition possible_paths : list string :=
  [ "./models/scunet/scunet.pth"; "./scunet.pth"; "~/.cache/scunet/scunet.pth" ]%string.

Definition default_model_path : string := "./models/scunet/scunet.pth".

Definition download_sources : list (string * string) :=
  [ ("GitHub Releases", "https://github.com/cszn/SCUNet/releases/download/v1.0/scunet.pth");
    ("GitHub Raw", "https://raw.githubusercontent.com/cszn/SCUNet/main/scunet.pth");
    ("Alternative Source",
     "https://github.com/cszn/SCUNet/releases/latest/download/scunet.pth") ]%string.

Definition keys : list string := ["model"; "net"]%string.

Definition locate (E : env) (w : world) : (exn + located) * world :=
  Locator.locate E possible_paths download_sources default_model_path w.

(** Lines 115-258, the body of the outer [try]. *)
Definition convert_body (E : env) (model_path : option string) (onnx_dir : string)
    (w : world) : (exn + bool) * world :=
  let '(r, w) :=
    match model_path with
    | Some p => (inr (Located p), w)
    | None => locate E w
    end in
  match r with
  | inl e => (inl e, w)
  | inr NotFound => (inr false, w)
  | inr (Located model_path) =>
      match load_model E keys model_path w with
      | (None, w) => (inr false, w)
      | (Some model, w) => export_and_verify E model onnx_dir w
      end
  end.

Definition convert_scunet_to_onnx (E : env) (model_path output_dir : option string)
    (w : world) : (exn + bool) * world :=
  let output_dir := default "./models/scunet"%string output_dir in
  match make_output_dirs E output_dir w with
  | (Some e, w) => (inl e, w)
  | (None, w) =>
      let '(b, w) :=
        outer_handler (convert_body E model_path (path_join output_dir "onnx") w) in
      (inr b, w)
  end.

Definition main (E : env) (model_path : option string) (w : world) : Z * world :=
  match check_dependencies E torch_packages w with
  | (false, w) => (1, emit (EExit 1) w)
  | (true, w) => exit_with (convert_scunet_to_onnx E model_path None w)
  end.

End SCUNet.

(** ** convert-zero-dce-to-onnx.py *)

Module ZeroDCE.
Import Pipeline.

Definition possible_paths (variant : string) : list string :=
  [ "./models/" +:+ variant +:+ "/" +:+ variant +:+ ".pth";
    "./" +:+ variant +:+ ".pth";
    "~/.cache/" +:+ variant +:+ "/" +:+ variant +:+ ".pth" ].

Definition default_model_path (variant : string) : string :=
  "./models/" +:+ variant +:+ "/" +:+ variant +:+ ".pth".

Definition download_sources (variant : string) : list (string * string) :=
  [ ("GitHub Releases",
     "https://github.com/Li-Chongyi/Zero-DCE/releases/download/v1.0/" +:+ variant +:+ ".pth");
    ("GitHub Raw",
     "https://raw.githubusercontent.com/Li-Chongyi/Zero-DCE/main/" +:+ variant +:+ ".pth");
    ("Alternative Source",
     "https://github.com/Li-Chongyi/Zero-DCE/releases/latest/download/" +:+ variant +:+ ".pth") ].

Definition keys : list string := ["model"; "net"; "DCE_net"]%string.

Definition locate (E : env) (variant : string) (w : world) : (exn + located) * world :=
  Locator.locate E (possible_paths variant) (download_sources variant)
    (default_model_path variant) w.

(** Lines 115-253, the body of the outer [try]. *)
Definition convert_body (E : env) (model_path : option string) (variant : string)
    (onnx_dir : string) (w : world) : (exn + bool) * world :=
  let '(r, w) :=
    match model_path with
    | Some p => (inr (Located p), w)
    | None => locate E variant w
    end in
  match r with
  | inl e => (inl e, w)
  | inr NotFound => (inr false, w)
  | inr (Located model_path) =>
      match load_model E keys model_path w with
      | (None, w) => (inr false, w)
      | (Some model, w) => export_and_verify E model onnx_dir w
      end
  end.

Definition convert_zero_dce_to_onnx (E : env) (model_path : option string)
    (variant : string) (output_dir : option string) (w : world)
    : (exn + bool) * world :=
  let output_dir := default ("./models/" +:+ replace_char "-" "_" variant) output_dir in
  match make_output_dirs E output_dir w with
  | (Some e, w) => (inl e, w)
  | (None, w) =>
      let '(b, w) :=
        outer_handler
          (convert_body E model_path variant (path_join output_dir "onnx") w) in
      (inr b, w)
  end.

Definition main (E : env) (model_path : option string) (variant : string) (w : world)
    : Z * world :=
  match check_dependencies E torch_packages w with
  | (false, w) => (1, emit (EExit 1) w)
  | (true, w) => exit_with (convert_zero_dce_to_onnx E model_path variant None w)
  end.

End ZeroDCE.

(** ** The command line of convert-realesrgan-to-onnx.py *)

Module RealESRGANCli.
Import Pipeline.

(** Lines 153-188.  The variant is asked for outside any [try]: at the
    end of standard input the [EOFError] ends the interpreter. *)
Definition main (E : env) (w : world) : Z * world :=
  match check_dependencies E torch_packages w with
  | (false, w) => (1, emit (EExit 1) w)
  | (true, w) =>
      match input w with
      | (inl e, w) => (1, emit (EExit 1) w)
      | (inr answer, w) =>
          let choice := strip answer in
          let model_name :=
            if String.eqb choice "2" then "RealESRGAN_x4plus_anime_6B"%string
            else "RealESRGAN_x4plus"%string in
          exit_with (RealESRGAN.convert_realesrgan_to_onnx E model_name None w)
      end
  end.

End RealESRGANCli.

(** ** More machines to run the scripts on *)

Module Machines.

Definition with_importable (f : string -> bool) (E : env) : env :=
  Env (home E) (urlopen E) (mkdir_parents E) (open_wb E) (git_clone E) (torch_load E)
    (import_generators E) (gen_inference_deep E) (load_state_dict E)
    (onnx_export E) (onnx_check E) f (hub_from_pretrained E)
    (ort_export E) (ort_quantize E) (realesrganer E).

(** Everything is installed but onnxruntime. *)
Definition without_onnxruntime : env :=
  with_importable (fun package => negb (String.eqb package "onnxruntime")) Scenario.base.

End Machines.

(** ** generate-unit-pages.py *)

Module UnitPages.

(** One entry of a category's list: [{'id': ..., 'name': ..., 'symbol': ...}]. *)
Record unit_def := Unit {
  unit_id : string;
  unit_name : string;
  unit_symbol : string
}.

(** Lines 36-71, the scan of one [addUnits] block for its top level brace
    pairs.  [rest] is what is left to read of [block_content], [i] the
    index of its first character; [start_idx] is [None] for the [-1] of
    the source.  The slices [block_content[start_idx:i+1]] come out in the
    order the scan closes them. *)
Fixpoint scan (block_content rest : string) (i : nat) (brace_count : Z)
    (start_idx : option nat) : list string :=
  match rest with
  | EmptyString => []
  | String c rest =>
      if Ascii.eqb c "{" then
        scan block_content rest (S i) (brace_count + 1)
          (if brace_count =? 0 then Some i else start_idx)
      else if Ascii.eqb c "}" then
        let brace_count := brace_count - 1 in
        match (if brace_count =? 0 then start_idx else None) with
        | Some start =>
            String.substring start (S i - start) block_content
            :: scan block_content rest (S i) brace_count None
        | None => scan block_content rest (S i) brace_count start_idx
        end
      else scan block_content rest (S i) brace_count start_idx
  end.

Definition unit_objects (block_content : string) : list string :=
  scan block_content block_content 0 0 None.

(** [units[unit_category].append(...)], with the list created on the
    first unit of a category. *)
Fixpoint append_unit (units : list (string * list unit_def)) (unit_category : string)
    (u : unit_def) : list (string * list unit_def) :=
  match units with
  | [] => [(unit_category, [u])]
  | (category, us) :: rest =>
      if String.eqb unit_category category then (category, us ++ [u]) :: rest
      else (category, us) :: append_unit rest unit_category u
  end.

(** The unit part of [extract_units_from_js]: [blocks] are the matches of
    the [addUnits] pattern, [parse_unit] stands for the four property
    patterns and answers the category and the unit when all four match. *)
Definition extract_units (parse_unit : string -> option (string * unit_def))
    (blocks : list string) : list (string * list unit_def) :=
  fold_left
    (fun units unit_obj =>
       match parse_unit unit_obj with
       | Some (unit_category, u) => append_unit units unit_category u
       | None => units
       end)
    (flat_map unit_objects blocks) [].

Inductive line :=
| LGenerating
| LCouldNotExtract
| LProcessing (category_name : string) (n : nat)
| LGenerated (total_pages : nat)
| LTotal (total_pages : nat)
| LUpdatingSitemap
| LDone.

Inductive action :=
| APrint (l : line)
| AMakedirs (combo_dir : string)
| AWrite (index_path html : string)
| AUpdateSitemap (locs : list string).

Record run := Run {
  log : list action;
  sitemap_entries : list string;
  total_pages : nat
}.

Definition say (l : line) (r : run) : run :=
  Run (log r ++ [APrint l]) (sitemap_entries r) (total_pages r).

Fixpoint enumerate_from {A} (start : nat) (l : list A) : list (nat * A) :=
  match l with
  | [] => []
  | x :: l => (start, x) :: enumerate_from (S start) l
  end.

Definition enumerate {A} (l : list A) : list (nat * A) := enumerate_from 0 l.

Section Main.

(** Lines 73-233: the page template. *)
Variable create_unit_page : string -> string -> unit_def -> unit_def -> string -> string.

(** Lines 260-285, the body of the inner loop past the [continue]. *)
Definition page (category_id category_name : string) (from_unit to_unit : unit_def)
    (r : run) : run :=
  let category_dir := "convert/units/" +:+ category_id in
  let combo_dir :=
    category_dir +:+ "/" +:+ unit_id from_unit +:+ "-to-" +:+ unit_id to_unit in
  let base_path := "/" +:+ combo_dir in
  let html := create_unit_page category_id category_name from_unit to_unit base_path in
  let index_path := combo_dir +:+ "/index.html" in
  let total_pages := S (total_pages r) in
  let r :=
    Run (log r ++ [AMakedirs combo_dir; AWrite index_path html])
      (sitemap_entries r ++ ["https://example.com" +:+ base_path]) total_pages in
  if (total_pages mod 100 =? 0)%nat then say (LGenerated total_pages) r else r.

(** Lines 256-285: the two [enumerate] loops of one category. *)
Definition category_pages (category_id category_name : string)
    (category_units : list unit_def) (r : run) : run :=
  fold_left
    (fun r '(i, from_unit) =>
       fold_left
         (fun r '(j, to_unit) =>
            if (i =? j)%nat then r
            else page category_id category_name from_unit to_unit r)
         (enumerate category_units) r)
    (enumerate category_units) r.

(** Lines 235-294, from the extracted tables on. *)
Definition main (units : list (string * list unit_def))
    (categories : list (string * string)) : run :=
  let r := say LGenerating (Run [] [] 0) in
  match units, categories with
  | [], _ | _, [] => say LCouldNotExtract r
  | _, _ =>
      let r :=
        fold_left
          (fun r '(category_id, category_name) =>
             match assoc category_id units with
             | None => r
             | Some category_units =>
                 category_pages category_id category_name category_units
                   (say (LProcessing category_name (length category_units)) r)
             end)
          categories r in
      let r := say LUpdatingSitemap (say (LTotal (total_pages r)) r) in
      say LDone
        (Run (log r ++ [AUpdateSitemap (sitemap_entries r)]) (sitemap_entries r)
           (total_pages r))
  end.

End Main.

(** What a well formed block is made of: text without braces, and
    objects, which open with a brace and close with the brace that
    matches it. *)
Fixpoint brace_free (s : string) : bool :=
  match s with
  | EmptyString => true
  | String c r => negb (Ascii.eqb c "{") && negb (Ascii.eqb c "}") && brace_free r
  end.

(** [s] closes [depth] open braces with its last character, and not
    before. *)
Fixpoint closes (depth : nat) (s : string) : bool :=
  match s with
  | EmptyString => false
  | String c r =>
      if Ascii.eqb c "{" then closes (S depth) r
      else if Ascii.eqb c "}" then
        match depth with
        | 0%nat => false
        | 1%nat => match r with EmptyString => true | _ => false end
        | S depth => closes depth r
        end
      else closes depth r
  end.

Definition is_object (s : string) : bool :=
  match s with
  | String c r => Ascii.eqb c "{" && closes 1 r
  | EmptyString => false
  end.

(** Separators and objects in turn, then a tail. *)
Definition block_of (items : list (string * string)) (tail : string) : string :=
  fold_right (fun '(sep, obj) text => sep +:+ obj +:+ text) tail items.




End UnitPages.

(** * Properties *)

(** ** Reading the trace *)

Lemma attempts_app t1 t2 : attempts (t1 ++ t2) = attempts t1 ++ attempts t2.
Proof. apply omap_app. Qed.

Lemma exported_app t1 t2 : exported (t1 ++ t2) = exported t1 ++ exported t2.
Proof. apply omap_app. Qed.

Lemma printed_app t1 t2 : printed (t1 ++ t2) = printed t1 ++ printed t2.
Proof. apply omap_app. Qed.

(** ** The fetcher *)

Module FetcherFacts.
Import Fetcher.
Lemma read_loop_error p body d t w :
  fst (read_loop p body d t w) = body_error body.
Proof.
  revert d w. induction body as [|r body IH]; intros d w; [done|].
  destruct r as [[|b chunk]|e]; simpl; [done| |done]. apply IH.
Qed.

Lemma download_body_error E url output_path w :
  fst (download_body E url output_path w) = fetch_error_of E url output_path.
Proof.
  unfold download_body, fetch_error_of, mkdir. simpl.
  destruct (mkdir_parents E (parent output_path)); [done|].
  destruct (urlopen E url); [done|].
  destruct (open_wb E output_path); [done|].
  apply read_loop_error.
Qed.

Lemma download_file_ok E url output_path w :
  fst (download_file E url output_path w) = fetch_ok E output_path url.
Proof.
  unfold download_file, fetch_ok. rewrite <- (download_body_error E url output_path w).
  destruct (download_body E url output_path w) as [[e|] w']; done.
Qed.

Lemma classify_message e : kind_of_message (failure_message e) = Some (classify e).
Proof.
  destruct e as [code| | |]; simpl; try done.
  destruct (code =? 401) eqn:H1; [apply Z.eqb_eq in H1; by subst|].
  destruct (code =? 404) eqn:H2; [apply Z.eqb_eq in H2; by subst|].
  apply Z.eqb_neq in H1, H2.
  destruct code as [|q|q]; try done.
  repeat (destruct q as [q|q|]; try done).
Qed.

End FetcherFacts.

(** ** Fetch failures *)

Module FetchClaims.
Import Fetcher FetcherFacts.

(** C2.  Whatever goes wrong in a fetch -- an HTTP error raised by
    [urlopen], or any other exception raised while the directory is made,
    the destination opened or the body read -- [download_file] returns
    [False]; the one line it prints stands for the kind the specification
    names (401 Unauthorized, 404 NotFound, another status HttpError with
    the code, anything else TransportError); and the download loop of the
    locator goes on with the next URL. *)
Theorem fetch_failure_is_classified_and_returned
    (E : env) (url output_path : string) (w : world) (e : exn) :
  fetch_error_of E url output_path = Some e ->
  exists w1,
    download_body E url output_path w = (Some e, w1) /\
    download_file E url output_path w = (false, print (failure_message e) w1) /\
    kind_of_message (failure_message e) = Some (classify e) /\
    forall rest,
      Locator.try_urls E (url :: rest) output_path w
      = Locator.try_urls E rest output_path (print (failure_message e) w1).
Proof.
  intros He.
  pose proof (download_body_error E url output_path w) as Hb.
  rewrite He in Hb.
  destruct (download_body E url output_path w) as [r w1] eqn:Hbody.
  simpl in Hb. subst r. exists w1.
  assert (Hfile : download_file E url output_path w
                  = (false, print (failure_message e) w1)).
  { unfold download_file. by rewrite Hbody. }
  repeat split; [done|apply classify_message|].
  intros rest. simpl. by rewrite Hfile.
Qed.

Lemma fetch_failure_is_classified_and_returned_witness :
  exists w1,
    download_body (Scenario.with_urlopen (fun _ => UrlRaises (HTTPError 401)) Scenario.base)
      "https://example.org/m.pth" "./models/m.pth" Scenario.nothing
    = (Some (HTTPError 401), w1) /\
    download_file (Scenario.with_urlopen (fun _ => UrlRaises (HTTPError 401)) Scenario.base)
      "https://example.org/m.pth" "./models/m.pth" Scenario.nothing
    = (false, print (failure_message (HTTPError 401)) w1) /\
    kind_of_message (failure_message (HTTPError 401)) = Some (classify (HTTPError 401)) /\
    forall rest,
      Locator.try_urls (Scenario.with_urlopen (fun _ => UrlRaises (HTTPError 401)) Scenario.base)
        ("https://example.org/m.pth" :: rest) "./models/m.pth" Scenario.nothing
      = Locator.try_urls (Scenario.with_urlopen (fun _ => UrlRaises (HTTPError 401)) Scenario.base)
          rest "./models/m.pth" (print (failure_message (HTTPError 401)) w1).
Proof.
  apply (fetch_failure_is_classified_and_returned
           (Scenario.with_urlopen (fun _ => UrlRaises (HTTPError 401)) Scenario.base)
           "https://example.org/m.pth" "./models/m.pth" Scenario.nothing (HTTPError 401)).
  reflexivity.
Defined.

Lemma read_loop_partial p chunks e rest d t w old :
  fs w !! p = Some (File old) ->
  Forall (fun c => c <> []) chunks ->
  exists w',
    read_loop p (map Bytes chunks ++ Raises e :: rest) d t w = (Some e, w') /\
    fs w' !! p = Some (File (old ++ concat chunks)).
Proof.
  intros Hold Hne. revert d w old Hold.
  induction Hne as [|c chunks Hc _ IH]; intros d w old Hold.
  - exists w. simpl. by rewrite app_nil_r.
  - destruct c as [|b c]; [done|].
    cbn [map app read_loop].
    edestruct (IH (d + Z.of_nat (length (b :: c)))
                 (print (MProgress (d + Z.of_nat (length (b :: c))) t)
                    (write_chunk p (b :: c) w))
                 (old ++ b :: c)) as (w' & Hrun & Hfs).
    { unfold write_chunk. simpl. rewrite Hold. apply lookup_insert_eq. }
    exists w'. split; [exact Hrun|].
    rewrite Hfs. f_equal. f_equal. simpl. by rewrite <- app_assoc.
Qed.

(** C10.  A fetch that fails after chunks were written leaves them at the
    destination: the file is opened and written before the failure, and
    neither [except] clause removes it.  A later probe of a candidate list
    headed by that path (the default path of every script is its first
    local candidate) takes the truncated file for a hit. *)
Theorem partial_file_survives_failed_fetch
    (E : env) (url dest : string) (w : world) (content_length : option Z)
    (chunks : list (list Z)) (e : exn) (rest : list read_result) :
  mkdir_parents E (parent dest) = None ->
  open_wb E dest = None ->
  urlopen E url = UrlResponse content_length (map Bytes chunks ++ Raises e :: rest) ->
  chunks <> [] ->
  Forall (fun c => c <> []) chunks ->
  expanduser E dest = dest ->
  exists w',
    download_file E url dest w = (false, w') /\
    fs w' !! dest = Some (File (concat chunks)) /\
    concat chunks <> [] /\
    forall others answers,
      Locator.probe E (dest :: others) (World (fs w') answers [])
      = (Some dest, World (fs w') answers [EExists dest]).
Proof.
  intros Hmk Hopen Hurl Hnil Hne Hexp.
  unfold download_file, download_body, mkdir. cbn [emit print fs stdin trace].
  rewrite Hmk, Hurl, Hopen.
  match goal with
  | |- context [read_loop dest _ 0 ?t ?w0] =>
      destruct (read_loop_partial dest chunks e rest 0 t w0 [])
        as (w' & Hrun & Hfs); [|exact Hne|]
  end.
  { unfold set_fs, emit. simpl. apply lookup_insert_eq. }
  rewrite Hrun. eexists. split; [reflexivity|].
  split; [exact Hfs|]. split.
  - destruct Hne as [|c chunks Hc _]; [done|]. destruct c; [done|]. done.
  - intros others answers. simpl. rewrite Hexp.
    unfold path_exists, emit. simpl. by rewrite Hfs.
Qed.

Lemma partial_file_survives_failed_fetch_witness :
  exists w',
    download_file
      (Scenario.with_urlopen
         (fun _ => UrlResponse (Some 5)
                     (map Bytes [[1; 2]; [3]] ++ Raises (Exception "timed out") :: []))
         Scenario.base)
      "https://example.org/FBCNN_q10.pth" (FBCNN.default_model_path 10) Scenario.nothing
    = (false, w') /\
    fs w' !! FBCNN.default_model_path 10 = Some (File (concat [[1; 2]; [3]])) /\
    concat [[1; 2]; [3]] <> [] /\
    forall others answers,
      Locator.probe
        (Scenario.with_urlopen
           (fun _ => UrlResponse (Some 5)
                       (map Bytes [[1; 2]; [3]] ++ Raises (Exception "timed out") :: []))
           Scenario.base)
        (FBCNN.default_model_path 10 :: others) (World (fs w') answers [])
      = (Some (FBCNN.default_model_path 10),
         World (fs w') answers [EExists (FBCNN.default_model_path 10)]).
Proof.
  apply (partial_file_survives_failed_fetch
           (Scenario.with_urlopen
              (fun _ => UrlResponse (Some 5)
                          (map Bytes [[1; 2]; [3]] ++ Raises (Exception "timed out") :: []))
              Scenario.base)
           "https://example.org/FBCNN_q10.pth" (FBCNN.default_model_path 10)
           Scenario.nothing (Some 5) [[1; 2]; [3]] (Exception "timed out") []).
  - reflexivity.
  - reflexivity.
  - reflexivity.
  - discriminate.
  - repeat constructor; discriminate.
  - reflexivity.
Defined.

End FetchClaims.

(** ** The locators *)

Module LocatorFacts.
Import Fetcher FetcherFacts Locator.


Lemma attempts_exists l : attempts (map EExists l) = [].
Proof. by induction l. Qed.





Lemma probe_spec E possible_paths w :
  probe E possible_paths w
  = (List.find (fun p => path_exists p w) (map (expanduser E) possible_paths),
     World (fs w) (stdin w)
       (trace w ++ map EExists
                     (through_first (fun p => path_exists p w)
                        (map (expanduser E) possible_paths)))).
Proof.
  revert w. induction possible_paths as [|path rest IH]; intros w; simpl.
  { rewrite app_nil_r. by destruct w. }
  change (path_exists (expanduser E path) (emit (EExists (expanduser E path)) w))
    with (path_exists (expanduser E path) w).
  destruct (path_exists (expanduser E path) w); [done|].
  rewrite IH. simpl. by rewrite <- app_assoc.
Qed.


Lemma locate_local_hit E possible_paths sources dest w p :
  List.find (fun p => path_exists p w) (map (expanduser E) possible_paths) = Some p ->
  fst (locate E possible_paths sources dest w) = inr (Located p) /\
  stdin (snd (locate E possible_paths sources dest w)) = stdin w /\
  attempts (trace (snd (locate E possible_paths sources dest w))) = attempts (trace w).
Proof.
  intros Hfind. unfold locate. rewrite probe_spec, Hfind. simpl.
  rewrite attempts_app, attempts_exists. by rewrite app_nil_r.
Qed.


End LocatorFacts.

Module DeOldifyLocatorFacts.
Import Fetcher FetcherFacts Locator LocatorFacts DeOldify Pipeline.







Lemma deoldify_local_hit E variant w p :
  List.find (fun p => path_exists p w) (map (expanduser E) (possible_paths variant)) = Some p ->
  fst (locate E variant w) = inr (Located p) /\
  attempts (trace (snd (locate E variant w))) = attempts (trace w).
Proof.
  intros Hfind. unfold locate. rewrite probe_spec, Hfind. simpl.
  rewrite attempts_app, attempts_exists. by rewrite app_nil_r.
Qed.


End DeOldifyLocatorFacts.

(** ** C1: the locator contract *)

Module LocateClaims.
Import Fetcher FetcherFacts Locator LocatorFacts DeOldifyLocatorFacts.




Example scenario_A :
  fst (locate Scenario.second_delivers ["./m.pth"]
         [("A", "https://a.example/m.pth"); ("B", "https://b.example/m.pth")]
         "./models/m.pth" (Scenario.on_disk [] ["y"]))
  = inr (Located "./models/m.pth") /\
  attempts (trace (snd (locate Scenario.second_delivers ["./m.pth"]
                          [("A", "https://a.example/m.pth"); ("B", "https://b.example/m.pth")]
                          "./models/m.pth" (Scenario.on_disk [] ["y"]))))
  = ["https://a.example/m.pth"; "https://b.example/m.pth"].
Proof. vm_compute. done. Qed.

End LocateClaims.

(** ** An invariant of the trace *)

Module TraceFacts.
Import Fetcher Locator Pipeline.

Lemma weight_name_is_artistic :
  DeOldify.weight_name = "ColorizeArtistic_gen"%string.
Proof. reflexivity. Qed.

Section Invariant.

Variable Q : event -> Prop.
Hypothesis Q_routine : forall e, routine e = true -> Q e.
Hypothesis Q_export : forall m p o, in_training m = false -> Q (EOnnxExport m p o).
Hypothesis Q_generator : Q (EGenInferenceDeep "ColorizeArtistic_gen").
Hypothesis Q_load : Q (ELoadStateDict false).

Local Abbreviation inv := (throughout Q).

Lemma wf_emit e w : Q e -> inv w -> inv (emit e w).
Proof.
  intros He Hw. unfold throughout, emit. simpl.
  apply Forall_app. split; [exact Hw|]. by constructor.
Qed.

Lemma wf_set_fs f w : inv w -> inv (set_fs f w).
Proof. done. Qed.

Ltac wf :=
  repeat first
    [ assumption
    | apply wf_set_fs
    | apply wf_emit; [apply Q_routine; reflexivity|] ].

Lemma wf_print_failure e w : inv w -> inv (print (failure_message e) w).
Proof.
  intros Hw. apply wf_emit; [|done]. apply Q_routine.
  destruct e; simpl; repeat case_match; done.
Qed.

Lemma wf_mkdir E p w : inv w -> inv (snd (mkdir E p w)).
Proof. intros Hw. unfold mkdir. repeat case_match; simpl; wf. Qed.

Lemma wf_copy2 src dst w : inv w -> inv (snd (copy2 src dst w)).
Proof. intros Hw. unfold copy2. repeat case_match; simpl; wf. Qed.

Lemma wf_clone E dest w : inv w -> inv (snd (clone E dest w)).
Proof. intros Hw. unfold clone. repeat case_match; simpl; wf. Qed.

Lemma wf_input w : inv w -> inv (snd (input w)).
Proof.
  intros Hw. unfold input. simpl. destruct (stdin w); simpl; [wf|].
  change (inv (emit EInput w)). wf.
Qed.

Lemma wf_read_loop p body d t w :
  inv w -> inv (snd (read_loop p body d t w)).
Proof.
  revert d w. induction body as [|r body IH]; intros d w Hw; [done|].
  destruct r as [[|b chunk]|e]; simpl; [done| |done].
  apply IH. unfold write_chunk. wf.
Qed.

Lemma wf_download_file E url dest w :
  inv w -> inv (snd (download_file E url dest w)).
Proof.
  intros Hw. unfold download_file.
  assert (H : inv (snd (download_body E url dest w))).
  { unfold download_body.
    pose proof (wf_mkdir E (parent dest) (print (MDownloading url) w)) as Hm.
    destruct (mkdir E (parent dest) (print (MDownloading url) w)) as [[e|] w1];
      simpl in Hm; [apply Hm; wf|].
    assert (Hw1 : inv w1) by (apply Hm; wf).
    repeat case_match; simpl; wf. apply wf_read_loop. wf. }
  destruct (download_body E url dest w) as [[e|] w1]; simpl in *;
    [by apply wf_print_failure|wf].
Qed.

Lemma wf_try_urls E urls dest w :
  inv w -> inv (snd (try_urls E urls dest w)).
Proof.
  revert w. induction urls as [|url urls IH]; intros w Hw; simpl; [done|].
  pose proof (wf_download_file E url dest w Hw) as Hd.
  destruct (download_file E url dest w) as [[|] w1]; simpl in *; [done|].
  by apply IH.
Qed.

Lemma wf_probe E paths w :
  inv w -> inv (snd (probe E paths w)).
Proof.
  revert w. induction paths as [|path paths IH]; intros w Hw; simpl; [done|].
  case_match; simpl; [wf|]. apply IH. wf.
Qed.

Lemma wf_locate E paths sources dest w :
  inv w -> inv (snd (locate E paths sources dest w)).
Proof.
  intros Hw. unfold locate.
  pose proof (wf_probe E paths w Hw) as Hp.
  destruct (probe E paths w) as [[p|] w1]; simpl in Hp; [done|].
  pose proof (wf_input (print MModelNotFound w1)) as Hi.
  destruct (input (print MModelNotFound w1)) as [[e|answer] w2]; simpl in Hi;
    [apply Hi; wf|].
  assert (Hw2 : inv w2) by (apply Hi; wf).
  case_match; simpl; [|wf].
  pose proof (wf_try_urls E (map snd sources) dest w2 Hw2) as Ht.
  destruct (try_urls E (map snd sources) dest w2) as [[|] w3]; simpl in *; wf.
Qed.

Lemma wf_load E model_path w :
  inv w -> inv (snd (load E model_path w)).
Proof. intros Hw. unfold load. repeat case_match; simpl; wf. Qed.

Lemma wf_verify_onnx E p w :
  inv w -> inv (verify_onnx E p w).
Proof. intros Hw. unfold verify_onnx. repeat case_match; simpl; wf. Qed.

Lemma wf_export_and_verify E model onnx_dir w :
  in_training model = false ->
  inv w ->
  ends_well Q (export_and_verify E model onnx_dir w).
Proof.
  intros Hm Hw. unfold export_and_verify, export_onnx.
  destruct (onnx_export E model); simpl.
  - apply wf_emit; [by apply Q_export|done].
  - eexists. split; [reflexivity|]. apply wf_verify_onnx.
    apply wf_emit; [by apply Q_routine|]. apply wf_set_fs.
    apply wf_emit; [by apply Q_export|done].
Qed.

Lemma eval_not_training v m : eval v = inr m -> in_training m = false.
Proof. destruct v; simpl; intros H; by simplify_eq. Qed.

Lemma wf_load_model_body E keys model_path w :
  inv w ->
  inv (snd (load_model_body E keys model_path w)) /\
  forall m, fst (load_model_body E keys model_path w) = inr (Some m) ->
            in_training m = false.
Proof.
  intros Hw. unfold load_model_body.
  pose proof (wf_load E model_path w Hw) as Hl.
  destruct (load E model_path w) as [[e|checkpoint] w1]; simpl in Hl; [done|].
  destruct (find_model checkpoint keys) as [e|model]; [done|].
  assert (Hr : inv
                 (snd (match model with
                       | VNone => load E model_path (print MNoModelInCheckpoint w1)
                       | _ => (inr model, w1)
                       end))).
  { destruct model; try done. apply wf_load. wf. }
  destruct (match model with
            | VNone => load E model_path (print MNoModelInCheckpoint w1)
            | _ => (inr model, w1)
            end) as [[e|model'] w2]; simpl in Hr; [done|].
  destruct (is_dict model'); simpl; [split; [wf|done]|].
  destruct (eval model') as [e|m'] eqn:Hev; simpl; [done|].
  split; [wf|]. intros m Hm. simplify_eq. by eapply eval_not_training.
Qed.

Lemma wf_load_model E keys model_path w :
  inv w ->
  inv (snd (load_model E keys model_path w)) /\
  forall m, fst (load_model E keys model_path w) = Some m -> in_training m = false.
Proof.
  intros Hw. unfold load_model.
  destruct (wf_load_model_body E keys model_path w Hw) as [Ht Hm].
  destruct (load_model_body E keys model_path w) as [[e|r] w1]; simpl in *.
  - split; [wf|done].
  - split; [done|]. intros m ->. by apply Hm.
Qed.

Lemma wf_outer_handler r :
  ends_well Q r -> ends_well Q (let '(b, w) := outer_handler r in (inr b, w)).
Proof. destruct r as [[e|[|]] w]; simpl; intros; wf. Qed.

Lemma wf_make_output_dirs E output_dir w :
  inv w -> inv (snd (make_output_dirs E output_dir w)).
Proof.
  intros Hw. unfold make_output_dirs.
  pose proof (wf_mkdir E output_dir w Hw) as Hm.
  destruct (mkdir E output_dir w) as [[e|] w1]; simpl in Hm; [done|].
  by apply wf_mkdir.
Qed.

Lemma wf_fbcnn E model_path quality_factor output_dir w :
  inv w ->
  ends_well Q (FBCNN.convert_fbcnn_to_onnx E model_path quality_factor output_dir w).
Proof.
  intros Hw. unfold FBCNN.convert_fbcnn_to_onnx.
  pose proof (wf_make_output_dirs E
                (default ("./models/fbcnn_q" +:+ pretty quality_factor) output_dir) w Hw) as Hd.
  destruct (make_output_dirs E _ w) as [[e|] w1]; simpl in Hd; [done|].
  apply wf_outer_handler. unfold FBCNN.convert_body.
  assert (Hl : inv
                 (snd (match model_path with
                       | Some p => (inr (Located p), w1)
                       | None => FBCNN.locate E quality_factor w1
                       end))).
  { destruct model_path; [done|]. by apply wf_locate. }
  destruct (match model_path with
            | Some p => (inr (Located p), w1)
            | None => FBCNN.locate E quality_factor w1
            end) as [[e|[p|]] w2]; simpl in Hl; try done.
  destruct (wf_load_model E FBCNN.keys p w2 Hl) as [Ht Hm].
  destruct (load_model E FBCNN.keys p w2) as [[m|] w3]; simpl in *; [|done].
  apply wf_export_and_verify; [by apply Hm|done].
Qed.

Lemma wf_realesrgan E model_name output_dir w :
  inv w ->
  ends_well Q (RealESRGAN.convert_realesrgan_to_onnx E model_name output_dir w).
Proof.
  intros Hw. unfold RealESRGAN.convert_realesrgan_to_onnx.
  case_match; simpl; [wf|].
  pose proof (wf_make_output_dirs E
                (default ("./models/realesrgan-" +:+ lower model_name) output_dir) w Hw) as Hd.
  destruct (make_output_dirs E _ w) as [[e|] w1]; simpl in Hd; [done|].
  apply wf_outer_handler. unfold RealESRGAN.convert_body.
  destruct (realesrganer E) as [e|upsampler]; [done|].
  destruct (getattr upsampler "model") as [model|]; [|done].
  destruct (eval model) as [e|m] eqn:Hev; [done|].
  apply wf_export_and_verify; [by eapply eval_not_training|wf].
Qed.


Import DeOldify.

Lemma wf_search_names dir names w :
  inv w -> inv (snd (search_names dir names w)).
Proof.
  revert w. induction names as [|n names IH]; intros w Hw; simpl; [done|].
  case_match; simpl; [wf|]. apply IH. wf.
Qed.

Lemma wf_search_dirs dirs names w :
  inv w -> inv (snd (search_dirs dirs names w)).
Proof.
  revert w. induction dirs as [|d dirs IH]; intros w Hw; simpl; [done|].
  case_match; [|apply IH; wf].
  pose proof (wf_search_names d names (emit (EExists d) w)) as Hn.
  destruct (search_names d names (emit (EExists d) w)) as [[found|] w1]; simpl in *.
  - apply Hn. wf.
  - apply IH, Hn. wf.
Qed.

Lemma wf_deoldify_locate E variant w :
  inv w -> inv (snd (locate E variant w)).
Proof.
  intros Hw. unfold locate.
  pose proof (wf_probe E (possible_paths variant) w Hw) as Hp.
  destruct (Locator.probe E (possible_paths variant) w) as [[p|] w1]; simpl in Hp; [done|].
  set (w0 := emit (EExists deoldify_repo) (print MModelNotFound w1)).
  assert (Hw0 : inv w0) by (unfold w0; wf).
  assert (Hc : inv
                 (snd (if path_exists deoldify_repo w0 then (None, w0)
                       else clone E deoldify_repo w0))).
  { case_match; [done|]. by apply wf_clone. }
  destruct (if path_exists deoldify_repo w0 then (None, w0)
            else clone E deoldify_repo w0) as [[e|] w2]; simpl in Hc.
  { destruct e; simpl; wf. }
  destruct (download_urls variant) as [e|urls]; [done|].
  pose proof (wf_try_urls E urls (default_model_path variant) w2 Hc) as Ht.
  destruct (Locator.try_urls E urls (default_model_path variant) w2) as [[|] w3];
    simpl in Ht; [done|].
  pose proof (wf_search_dirs (model_search_paths E)
                (default [] (assoc variant model_name_map)) w3 Ht) as Hs.
  destruct (search_dirs _ _ w3) as [[found|] w4]; simpl in Hs; [|simpl; wf].
  pose proof (wf_mkdir E (parent (default_model_path variant)) w4 Hs) as Hm.
  destruct (mkdir E _ w4) as [[e|] w5]; simpl in Hm; [done|].
  pose proof (wf_copy2 found (default_model_path variant) w5 Hm) as Hcp.
  destruct (copy2 found _ w5) as [[e|] w6]; simpl in *; wf.
Qed.

Lemma wf_extract_state_dict items w :
  inv w -> inv (snd (extract_state_dict items w)).
Proof. intros Hw. unfold extract_state_dict. repeat case_match; simpl; wf. Qed.

Lemma wf_ensure_generators E w :
  inv w -> inv (snd (ensure_generators E w)).
Proof.
  intros Hw. unfold ensure_generators.
  destruct (import_generators E false _) as [[| |m|]|]; simpl; wf.
  set (w0 := emit (EExists deoldify_repo) (print MArchitectureUnavailable
                                             (emit EImportGenerators w))).
  assert (Hw0 : inv w0) by (unfold w0; wf).
  assert (Hc : inv
                 (if path_exists deoldify_repo w0 then w0
                  else snd (clone E deoldify_repo w0))).
  { case_match; [done|]. by apply wf_clone. }
  repeat case_match; simpl; wf.
Qed.

Lemma wf_create_generator_body E model_path state_dict w :
  inv w ->
  inv (snd (create_generator_body E model_path state_dict w)).
Proof.
  intros Hw. unfold create_generator_body.
  pose proof (wf_mkdir E "./DeOldify/models" w Hw) as Hm.
  destruct (mkdir E "./DeOldify/models" w) as [[e|] w1]; simpl in Hm; [done|].
  set (expected := path_join "./DeOldify/models" expected_weight_name).
  assert (Hc : inv
                 (snd (if path_exists expected (emit (EExists expected) w1)
                       then (None, emit (EExists expected) w1)
                       else copy2 model_path expected
                              (print (MCopyingToExpected expected)
                                 (emit (EExists expected) w1))))).
  { case_match; simpl; [wf|]. apply wf_copy2. wf. }
  destruct (if path_exists expected (emit (EExists expected) w1)
            then (None, emit (EExists expected) w1)
            else copy2 model_path expected
                   (print (MCopyingToExpected expected)
                      (emit (EExists expected) w1))) as [[e|] w2]; simpl in Hc; [done|].
  assert (Hg : inv (emit (EGenInferenceDeep weight_name) w2)).
  { apply wf_emit; [rewrite weight_name_is_artistic; exact Q_generator|done]. }
  destruct (gen_inference_deep E 0 _ weight_name) as [e1|model]; simpl; [|wf].
  assert (Hg2 : inv
                  (emit (EGenInferenceDeep "ColorizeArtistic_gen")
                     (print (MErrorLoadingFromPath e1)
                        (emit (EGenInferenceDeep weight_name) w2)))).
  { apply wf_emit; [exact Q_generator|]. wf. }
  destruct (gen_inference_deep E 1 _ "ColorizeArtistic_gen") as [e|model]; simpl; [done|].
  destruct (getattr model "model") as [net|]; simpl; [|done].
  assert (Hl : inv
                 (emit (ELoadStateDict false)
                    (emit (EGenInferenceDeep "ColorizeArtistic_gen")
                       (print (MErrorLoadingFromPath e1)
                          (emit (EGenInferenceDeep weight_name) w2))))).
  { apply wf_emit; [exact Q_load|done]. }
  destruct (load_state_dict E net state_dict false); simpl; wf.
Qed.

Lemma wf_resolve_dict E model_path items w :
  inv w ->
  inv (snd (resolve_dict E model_path items w)).
Proof.
  intros Hw. unfold resolve_dict.
  set (w0 := print _ w).
  assert (Hw0 : inv w0) by (unfold w0; wf).
  pose proof (wf_extract_state_dict items w0 Hw0) as Hx.
  destruct (extract_state_dict items w0) as [[state_dict|] w1]; simpl in Hx; [|simpl; wf].
  pose proof (wf_ensure_generators E w1 Hx) as Hg.
  pose proof (fun sd => wf_create_generator_body E model_path sd) as Hc.
  destruct state_dict; simpl; try wf;
    destruct (ensure_generators E w1) as [[e|[|]] w2]; simpl in *; try done;
    match goal with
    | |- context [create_generator_body E model_path ?sd w2] =>
        specialize (Hc sd w2 Hg);
        destruct (create_generator_body E model_path sd w2) as [[e|m] w3]
    end; simpl in *; wf.
Qed.

Lemma wf_deoldify_load_model_body E model_path w :
  inv w ->
  inv (snd (DeOldify.load_model_body E model_path w)) /\
  forall m, fst (DeOldify.load_model_body E model_path w) = inr (Some m) ->
            in_training m = false.
Proof.
  intros Hw. unfold DeOldify.load_model_body.
  pose proof (wf_load E model_path w Hw) as Hl.
  destruct (load E model_path w) as [[e|checkpoint] w1]; simpl in Hl; [done|].
  destruct (find_model checkpoint _) as [e|model]; [done|].
  assert (Hr : inv
                 (snd (match model with
                       | VNone => load E model_path (print MNoModelInCheckpoint w1)
                       | _ => (inr model, w1)
                       end))).
  { destruct model; try done. apply wf_load. wf. }
  destruct (match model with
            | VNone => load E model_path (print MNoModelInCheckpoint w1)
            | _ => (inr model, w1)
            end) as [[e|model'] w2]; simpl in Hr; [done|].
  assert (Hd : inv
                 (snd (match model' with
                       | VDict items =>
                           resolve_dict E model_path items (print MModelIsDict w2)
                       | _ => (inr (Some model'), w2)
                       end))).
  { destruct model'; try done. apply wf_resolve_dict. wf. }
  destruct (match model' with
            | VDict items => resolve_dict E model_path items (print MModelIsDict w2)
            | _ => (inr (Some model'), w2)
            end) as [[e|[m0|]] w3]; simpl in Hd; try done.
  destruct (eval (unwrap m0)) as [e|m'] eqn:Hev; simpl; [done|].
  split; [wf|]. intros m Hm. simplify_eq. by eapply eval_not_training.
Qed.

Lemma wf_deoldify_load_model E model_path w :
  inv w ->
  inv (snd (DeOldify.load_model E model_path w)) /\
  forall m, fst (DeOldify.load_model E model_path w) = Some m -> in_training m = false.
Proof.
  intros Hw. unfold DeOldify.load_model.
  destruct (wf_deoldify_load_model_body E model_path w Hw) as [Ht Hm].
  destruct (DeOldify.load_model_body E model_path w) as [[e|r] w1]; simpl in *.
  - split; [wf|done].
  - split; [done|]. intros m ->. by apply Hm.
Qed.

Lemma wf_deoldify E model_path variant output_dir w :
  inv w ->
  ends_well Q (convert_deoldify_to_onnx E model_path variant output_dir w).
Proof.
  intros Hw. unfold convert_deoldify_to_onnx.
  pose proof (wf_make_output_dirs E
                (default ("./models/deoldify_" +:+ variant) output_dir) w Hw) as Hd.
  destruct (make_output_dirs E _ w) as [[e|] w1]; simpl in Hd; [done|].
  apply wf_outer_handler. unfold DeOldify.convert_body.
  assert (Hl : inv
                 (snd (match model_path with
                       | Some p => (inr (Located p), w1)
                       | None => locate E variant w1
                       end))).
  { destruct model_path; [done|]. by apply wf_deoldify_locate. }
  destruct (match model_path with
            | Some p => (inr (Located p), w1)
            | None => locate E variant w1
            end) as [[e|[p|]] w2]; simpl in Hl; try done.
  destruct (wf_deoldify_load_model E p w2 Hl) as [Ht Hm].
  destruct (DeOldify.load_model E p w2) as [[m|] w3]; simpl in *; [|done].
  apply wf_export_and_verify; [by apply Hm|done].
Qed.

End Invariant.

Lemma runtime_call_exported t :
  Forall runtime_call t -> Forall (fun m => in_training m = false) (exported t).
Proof.
  induction 1 as [|e t He _ IH]; [constructor|].
  destruct e; simpl; try done. by constructor.
Qed.

End TraceFacts.

(** ** C7, C8: what is exported, and how a run ends *)

Module RunClaims.
Import Pipeline TraceFacts.

Lemma runtime_call_routine e : routine e = true -> runtime_call e.
Proof. destruct e; simpl; try done. Qed.

Lemma not_done_routine e : routine e = true -> not_done e.
Proof. intros H ->. done. Qed.

Lemma ends_well_throughout Q r :
  Q (EPrint MConversionComplete) -> ends_well Q r -> throughout Q (snd r).
Proof.
  intros HQ. destruct r as [[e|[|]] w]; simpl; try done.
  intros (w' & -> & Hw). unfold throughout, print, emit. simpl.
  apply Forall_app. split; [done|]. by constructor.
Qed.

Lemma nothing_yet Q f answers : throughout Q (World f answers []).
Proof. constructor. Qed.

(** C7.  Whatever the collaborators do, every model handed to
    [torch.onnx.export] by the DeOldify, Real-ESRGAN and FBCNN
    conversions is in evaluation mode, and so is every model the two
    resolvers return. *)
Theorem exported_models_are_in_evaluation_mode
    (E : env) (f : gmap string node) (answers : list string) :
  (forall model_path variant output_dir,
     Forall (fun m => in_training m = false)
       (exported (trace (snd (DeOldify.convert_deoldify_to_onnx E model_path variant
                                output_dir (World f answers [])))))) /\
  (forall model_name output_dir,
     Forall (fun m => in_training m = false)
       (exported (trace (snd (RealESRGAN.convert_realesrgan_to_onnx E model_name
                                output_dir (World f answers [])))))) /\
  (forall model_path quality_factor output_dir,
     Forall (fun m => in_training m = false)
       (exported (trace (snd (FBCNN.convert_fbcnn_to_onnx E model_path quality_factor
                                output_dir (World f answers [])))))) /\
  (forall model_path w m,
     fst (DeOldify.load_model E model_path w) = Some m -> in_training m = false) /\
  (forall keys model_path w m,
     fst (load_model E keys model_path w) = Some m -> in_training m = false).
Proof.
  repeat split.
  - intros. apply runtime_call_exported, ends_well_throughout; [exact I|].
    apply wf_deoldify; try done; [apply runtime_call_routine|apply nothing_yet].
  - intros. apply runtime_call_exported, ends_well_throughout; [exact I|].
    apply wf_realesrgan; try done; [apply runtime_call_routine|apply nothing_yet].
  - intros. apply runtime_call_exported, ends_well_throughout; [exact I|].
    apply wf_fbcnn; try done; [apply runtime_call_routine|apply nothing_yet].
  - intros model_path w m.
    apply (wf_deoldify_load_model (fun _ => True)); try done.
    unfold throughout. apply Forall_forall. done.
  - intros keys model_path w m.
    apply (wf_load_model (fun _ => True)); try done.
    unfold throughout. apply Forall_forall. done.
Qed.

Lemma exited_as_reported r :
  ends_well not_done r ->
  (fst (exit_with r) = 0 <-> In (EPrint MConversionComplete) (trace (snd (exit_with r)))) /\
  (fst (exit_with r) = 0 \/ fst (exit_with r) = 1) /\
  last (trace (snd (exit_with r))) = Some (EExit (fst (exit_with r))).
Proof.
  assert (Hnot : forall w l,
            throughout not_done w -> Forall not_done l ->
            ~ In (EPrint MConversionComplete) (trace w ++ l)).
  { intros w l Hw Hl Hin. apply in_app_or in Hin.
    destruct Hin as [Hin|Hin].
    - unfold throughout in Hw. rewrite Forall_forall in Hw.
      apply list_elem_of_In, Hw in Hin. by apply Hin.
    - rewrite Forall_forall in Hl. apply list_elem_of_In, Hl in Hin. by apply Hin. }
  destruct r as [[e|[|]] w]; simpl.
  - intros Hw. split; [|split; [by right|apply last_snoc]].
    split; [done|]. intros Hin. exfalso. revert Hin. apply Hnot; [done|].
    repeat constructor. done.
  - intros (w' & -> & Hw). split; [|split; [by left|apply last_snoc]].
    split; [|done]. intros _. simpl. apply in_or_app. left. apply in_or_app. left.
    apply in_or_app. right. by left.
  - intros Hw. split; [|split; [by right|apply last_snoc]].
    split; [done|]. intros Hin. exfalso. revert Hin. rewrite <- app_assoc.
    apply Hnot; [done|]. repeat constructor; done.
Qed.

Lemma refused_as_reported E packages f answers :
  fst (check_dependencies E packages (World f answers [])) = false ->
  ~ In (EPrint MConversionComplete)
      (trace (emit (EExit 1) (snd (check_dependencies E packages (World f answers []))))).
Proof.
  unfold check_dependencies. case_match; [done|]. simpl.
  intros _ [Hin|[Hin|[]]]; done.
Qed.

(** C8.  The DeOldify and FBCNN command lines end with exit code 0
    exactly when the run printed its closing line (the run reached Done,
    warnings or not), and with exit code 1 otherwise; the exit is the last
    thing a run does. *)
Theorem exit_code_zero_exactly_when_done
    (E : env) (f : gmap string node) (answers : list string) :
  (forall model_path variant,
     let r := DeOldify.main E model_path variant (World f answers []) in
     (fst r = 0 <-> In (EPrint MConversionComplete) (trace (snd r))) /\
     (fst r = 0 \/ fst r = 1) /\
     last (trace (snd r)) = Some (EExit (fst r))) /\
  (forall model_path quality,
     let r := FBCNN.main E model_path quality (World f answers []) in
     (fst r = 0 <-> In (EPrint MConversionComplete) (trace (snd r))) /\
     (fst r = 0 \/ fst r = 1) /\
     last (trace (snd r)) = Some (EExit (fst r))).
Proof.
  split.
  - intros model_path variant. unfold DeOldify.main.
    pose proof (refused_as_reported E torch_packages f answers) as Hr.
    destruct (check_dependencies E torch_packages (World f answers []))
      as [[|] w] eqn:Hc; cbv zeta.
    + apply exited_as_reported. apply wf_deoldify; try done.
      * apply not_done_routine.
      * revert Hc. unfold check_dependencies. case_match; [|done].
        intros [= <-]. apply nothing_yet.
    + simpl in *. split; [|split; [by right|apply last_snoc]].
      split; [done|]. intros Hin. by apply Hr in Hin.
  - intros model_path quality. unfold FBCNN.main.
    pose proof (refused_as_reported E torch_packages f answers) as Hr.
    destruct (check_dependencies E torch_packages (World f answers []))
      as [[|] w] eqn:Hc; cbv zeta.
    + apply exited_as_reported. apply wf_fbcnn; try done.
      * apply not_done_routine.
      * revert Hc. unfold check_dependencies. case_match; [|done].
        intros [= <-]. apply nothing_yet.
    + simpl in *. split; [|split; [by right|apply last_snoc]].
      split; [done|]. intros Hin. by apply Hr in Hin.
Qed.

Lemma exported_models_are_in_evaluation_mode_witness :
  fst (load_model Scenario.module_under_key FBCNN.keys "./m.pth" Scenario.checkpoint_on_disk)
  = Some (VModule false []) /\
  in_training (VModule false []) = false.
Proof.
  split; [reflexivity|].
  apply (proj2 (proj2 (proj2 (proj2
           (exported_models_are_in_evaluation_mode Scenario.module_under_key ∅ []))))
           FBCNN.keys "./m.pth" Scenario.checkpoint_on_disk (VModule false [])).
  reflexivity.
Defined.

Example a_module_in_training_mode_is_exported_in_evaluation_mode :
  exported (trace (snd (FBCNN.convert_fbcnn_to_onnx Scenario.module_under_key
                          (Some "./m.pth") 10 None Scenario.checkpoint_on_disk)))
  = [VModule false []] /\
  fst (FBCNN.main Scenario.module_under_key (Some "./m.pth") 10 Scenario.checkpoint_on_disk)
  = 0.
Proof. vm_compute. done. Qed.

Example a_missing_file_exits_with_1 :
  fst (FBCNN.main Scenario.module_under_key (Some "./absent.pth") 10
         Scenario.checkpoint_on_disk) = 1.
Proof. vm_compute. done. Qed.

Lemma append_inj_l a b c : a +:+ b = a +:+ c -> b = c.
Proof. induction a as [|x a IH]; simpl; [done|]. intros [= H]. by apply IH. Qed.

(** C6.  Once the graph is written, neither the verifier nor the
    quantizer can make the run fail: whatever they answer, the export and
    verification steps end with [True] after the closing line, the graph
    is on disk, and a failure shows as one warning line.  So a DeOldify
    run whose model was resolved and exported returns [True], and so does
    an AI-detector run whose model was converted. *)
Theorem optional_steps_never_fail_the_run (E : env) (w : world) (graph : list Z) :
  (forall model onnx_dir,
     onnx_export E model = inr graph ->
     exists w',
       export_and_verify E model onnx_dir w = (inr true, print MConversionComplete w') /\
       fs w' !! path_join onnx_dir "model.onnx" = Some (File graph) /\
       forall e, onnx_check E graph = Some e ->
                 last (trace w') = Some (EPrint (MVerificationWarning e))) /\
  (forall model_path variant onnx_dir model w1,
     DeOldify.load_model E model_path w = (Some model, w1) ->
     onnx_export E model = inr graph ->
     fst (outer_handler (DeOldify.convert_body E (Some model_path) variant onnx_dir w))
     = true) /\
  (forall model_id output_path quantize,
     hub_from_pretrained E model_id = None ->
     ort_export E model_id = inr graph ->
     exists w',
       AIDetector.convert_body E model_id output_path quantize w
       = (inr true, print MConversionComplete w') /\
       fs w' !! path_join (path_join output_path "onnx") "model.onnx" = Some (File graph) /\
       forall e, quantize = true -> ort_quantize E graph = inl e ->
                 last (trace w') = Some (EPrint (MQuantizationFailed e))).
Proof.
  assert (Hexport : forall model onnx_dir w0,
            onnx_export E model = inr graph ->
            exists w',
              export_and_verify E model onnx_dir w0
              = (inr true, print MConversionComplete w') /\
              fs w' !! path_join onnx_dir "model.onnx" = Some (File graph) /\
              forall e, onnx_check E graph = Some e ->
                        last (trace w') = Some (EPrint (MVerificationWarning e))).
  { intros model onnx_dir w0 Hx. unfold export_and_verify, export_onnx, verify_onnx.
    rewrite Hx. cbn [print emit set_fs fs stdin trace].
    rewrite lookup_insert_eq. eexists. split; [reflexivity|].
    destruct (onnx_check E graph) as [e|]; cbn [print emit fs trace].
    - split; [apply lookup_insert_eq|]. intros e' [= <-]. apply last_snoc.
    - split; [apply lookup_insert_eq|]. done. }
  split; [|split].
  - intros model onnx_dir. apply Hexport.
  - intros model_path variant onnx_dir model w1 Hload Hx. unfold DeOldify.convert_body.
    rewrite Hload. destruct (Hexport model onnx_dir w1 Hx) as (w' & -> & _). done.
  - intros model_id output_path quantize Hhub Hx. unfold AIDetector.convert_body.
    rewrite Hhub, Hx. eexists. split; [reflexivity|].
    destruct quantize; cbn [print emit set_fs fs stdin trace].
    + unfold AIDetector.quantize_step. cbn [print emit set_fs fs stdin trace].
      rewrite lookup_insert_eq.
      destruct (ort_quantize E graph) as [e|quantized]; cbn [print emit set_fs fs trace].
      * split; [apply lookup_insert_eq|]. intros e' _ [= <-]. apply last_snoc.
      * split; [|done]. rewrite lookup_insert_ne; [apply lookup_insert_eq|].
        unfold path_join. intros Heq. apply append_inj_l, append_inj_l in Heq. done.
    + split; [apply lookup_insert_eq|]. done.
Qed.

Lemma optional_steps_never_fail_the_run_witness :
  exists w',
    export_and_verify Scenario.checker_rejects (VModule false []) "./out/onnx"
      Scenario.nothing
    = (inr true, print MConversionComplete w') /\
    fs w' !! path_join "./out/onnx" "model.onnx" = Some (File [79; 78; 78; 88]) /\
    forall e, onnx_check Scenario.checker_rejects [79; 78; 78; 88] = Some e ->
              last (trace w') = Some (EPrint (MVerificationWarning e)).
Proof.
  apply (proj1 (optional_steps_never_fail_the_run Scenario.checker_rejects
                  Scenario.nothing [79; 78; 78; 88])
           (VModule false []) "./out/onnx").
  reflexivity.
Defined.

Example a_failed_quantization_is_a_warning :
  fst (AIDetector.convert_model_to_onnx Scenario.quantizer_fails
         "roberta-base-openai-detector" None true Scenario.nothing) = inr true /\
  In (EPrint (MQuantizationFailed (Exception "unsupported operator")))
     (trace (snd (AIDetector.convert_model_to_onnx Scenario.quantizer_fails
                    "roberta-base-openai-detector" None true Scenario.nothing))).
Proof. vm_compute. split; [done|]. tauto. Qed.

Example a_failed_verification_is_a_warning :
  fst (DeOldify.main Scenario.checker_rejects (Some "./m.pth") "artistic"
         Scenario.checkpoint_on_disk) = 0.
Proof. vm_compute. done. Qed.

End RunClaims.

(** ** C3, C4, C5, C9: the checkpoint resolver *)

Module ResolveClaims.
Import Pipeline TraceFacts RunClaims.

(** C3 does not hold of the code.  A checkpoint that is a module itself
    never reaches the lines meant for it: the key search calls [get] on
    it, which raises, and the [except] clause of the resolver turns that
    into a failure.  Nothing is exported. *)
Theorem direct_module_checkpoint_is_rejected
    (E : env) (model_path : string) (w : world) (content : list Z)
    (training : bool) (attrs : list (string * value)) :
  fs w !! model_path = Some (File content) ->
  torch_load E content = inr (VModule training attrs) ->
  (forall keys,
     load_model E keys model_path w
     = (None, print (MErrorLoadingModel (attribute_error "get"))
                (emit (ETorchLoad model_path) w))) /\
  DeOldify.load_model E model_path w
  = (None, print (MErrorLoadingModel (attribute_error "get"))
             (emit (ETorchLoad model_path) w)) /\
  (forall quality_factor onnx_dir,
     FBCNN.convert_body E (Some model_path) quality_factor onnx_dir w
     = (inr false, print (MErrorLoadingModel (attribute_error "get"))
                     (emit (ETorchLoad model_path) w))) /\
  (forall variant onnx_dir,
     DeOldify.convert_body E (Some model_path) variant onnx_dir w
     = (inr false, print (MErrorLoadingModel (attribute_error "get"))
                     (emit (ETorchLoad model_path) w))).
Proof.
  intros Hfile Hload.
  assert (H1 : forall keys,
            load_model E keys model_path w
            = (None, print (MErrorLoadingModel (attribute_error "get"))
                       (emit (ETorchLoad model_path) w))).
  { intros keys. unfold load_model, load_model_body, load.
    cbn [emit fs]. by rewrite Hfile, Hload. }
  assert (H2 : DeOldify.load_model E model_path w
               = (None, print (MErrorLoadingModel (attribute_error "get"))
                          (emit (ETorchLoad model_path) w))).
  { unfold DeOldify.load_model, DeOldify.load_model_body, load.
    cbn [emit fs]. by rewrite Hfile, Hload. }
  repeat split; try done.
  - intros. unfold FBCNN.convert_body. by rewrite H1.
  - intros. unfold DeOldify.convert_body. by rewrite H2.
Qed.

Lemma direct_module_checkpoint_is_rejected_witness :
  DeOldify.load_model Scenario.module_itself "./m.pth" Scenario.checkpoint_on_disk
  = (None, print (MErrorLoadingModel (attribute_error "get"))
             (emit (ETorchLoad "./m.pth") Scenario.checkpoint_on_disk)).
Proof.
  apply (proj1 (proj2 (direct_module_checkpoint_is_rejected Scenario.module_itself
                         "./m.pth" Scenario.checkpoint_on_disk [80; 75] true []
                         eq_refl eq_refl))).
Defined.

Example a_pickled_module_fails_the_run :
  fst (FBCNN.convert_fbcnn_to_onnx Scenario.module_itself (Some "./m.pth") 10 None
         Scenario.checkpoint_on_disk) = inr false /\
  exported (trace (snd (FBCNN.convert_fbcnn_to_onnx Scenario.module_itself
                          (Some "./m.pth") 10 None Scenario.checkpoint_on_disk))) = [] /\
  fst (FBCNN.main Scenario.module_itself (Some "./m.pth") 10 Scenario.checkpoint_on_disk)
  = 1 /\
  fst (DeOldify.main Scenario.module_itself (Some "./m.pth") "artistic"
         Scenario.checkpoint_on_disk) = 1.
Proof. vm_compute. done. Qed.

(** C4, as stated, fails in both directions.  A dict of two tensors and
    a counter has a majority of tensors and no conventional key, and is
    not taken for a state dict: resolution fails.  An empty dict has no
    majority of anything, and is taken for one. *)
Lemma majority_is_not_the_test :
  find_model (VDict Scenario.mostly_tensors) ["model"; "net"; "generator"]%string
  = inr VNone /\
  majority_tensor_like (map snd Scenario.mostly_tensors) = true /\
  fst (DeOldify.extract_state_dict Scenario.mostly_tensors Scenario.nothing) = None /\
  fst (DeOldify.load_model Scenario.mostly_tensors_checkpoint "./m.pth"
         Scenario.checkpoint_on_disk) = None /\
  majority_tensor_like [] = false /\
  fst (DeOldify.extract_state_dict [] Scenario.nothing) = Some (VDict []).
Proof. vm_compute. done. Qed.

(** C4, amended.  A dict with neither a generator nor a state_dict key
    is taken for the weight state itself exactly when each of its first
    five values is a tensor or a dict (so an empty dict is).  Then the
    architecture step follows: the generator factories are imported.
    Otherwise resolution fails there and then. *)
Theorem state_dict_when_first_five_are_tensor_like
    (E : env) (model_path : string) (items : list (string * value)) (w : world) :
  dict_mem items "generator" = false ->
  dict_mem items "state_dict" = false ->
  (fst (DeOldify.extract_state_dict items w) = Some (VDict items) <->
   forallb is_tensor_or_dict (firstn 5 (map snd items)) = true) /\
  (forallb is_tensor_or_dict (firstn 5 (map snd items)) = true ->
   DeOldify.resolve_dict E model_path items w
   = match DeOldify.ensure_generators E
             (print MStateDictDirect
                (print (MKeysFound (if (10 <? length (map fst items))%nat
                                    then firstn 10 (map fst items)
                                    else map fst items)) w)) with
     | (inl e, w') => (inl e, w')
     | (inr false, w') => (inr None, w')
     | (inr true, w') =>
         match DeOldify.create_generator_body E model_path (VDict items) w' with
         | (inl e, w'') => (inr None, print (MErrorCreatingGenerator e) w'')
         | (inr model, w'') => (inr (Some model), w'')
         end
     end) /\
  (forallb is_tensor_or_dict (firstn 5 (map snd items)) = false ->
   fst (DeOldify.resolve_dict E model_path items w) = inr None /\
   last (trace (snd (DeOldify.resolve_dict E model_path items w)))
   = Some (EPrint MNoStateDict)).
Proof.
  intros Hg Hs. unfold DeOldify.resolve_dict, DeOldify.extract_state_dict.
  rewrite Hg, Hs.
  destruct (forallb is_tensor_or_dict (firstn 5 (map snd items))); simpl.
  - split; [done|]. split; [|done]. intros _. reflexivity.
  - split; [done|]. split; [done|]. intros _. split; [done|]. apply last_snoc.
Qed.

Lemma state_dict_when_first_five_are_tensor_like_witness :
  fst (DeOldify.resolve_dict Scenario.base "./m.pth" Scenario.mostly_tensors Scenario.nothing)
  = inr None /\
  last (trace (snd (DeOldify.resolve_dict Scenario.base "./m.pth" Scenario.mostly_tensors
                      Scenario.nothing)))
  = Some (EPrint MNoStateDict).
Proof.
  apply (proj2 (proj2 (state_dict_when_first_five_are_tensor_like Scenario.base "./m.pth"
                         Scenario.mostly_tensors Scenario.nothing eq_refl eq_refl))).
  reflexivity.
Defined.

(** C5, as stated, fails on the reporting.  The loader is called with
    [strict=False] and tells that one key is missing and one unexpected;
    the run succeeds, and no printed line carries either key. *)
Lemma mismatched_keys_are_not_reported :
  load_state_dict Scenario.mismatched_keys (VModule true [])
    (VDict [("unexpected.weight", VTensor)]%string) false
  = inr (["layers.0.weight"], ["unexpected.weight"])%string /\
  fst (DeOldify.convert_deoldify_to_onnx Scenario.mismatched_keys (Some "./m.pth")
         "artistic" None Scenario.checkpoint_on_disk) = inr true /\
  In (ELoadStateDict false)
     (trace (snd (DeOldify.convert_deoldify_to_onnx Scenario.mismatched_keys
                    (Some "./m.pth") "artistic" None Scenario.checkpoint_on_disk))) /\
  reported "unexpected.weight"
    (trace (snd (DeOldify.convert_deoldify_to_onnx Scenario.mismatched_keys
                   (Some "./m.pth") "artistic" None Scenario.checkpoint_on_disk)))
  = false /\
  reported "layers.0.weight"
    (trace (snd (DeOldify.convert_deoldify_to_onnx Scenario.mismatched_keys
                   (Some "./m.pth") "artistic" None Scenario.checkpoint_on_disk)))
  = false.
Proof. vm_compute. repeat split; try done. tauto. Qed.

(** C5, amended.  Weights are loaded with [strict=False] on every path,
    and what the loader returns (the keys that were missing, the keys that
    were unexpected) is dropped: the result of resolution and everything
    the resolver prints or calls are the same whatever those lists are. *)
Theorem loading_is_non_strict_and_its_report_is_dropped
    (E : env) (f : gmap string node) (answers : list string)
    (report1 report2 : list string * list string) :
  (forall model_path variant output_dir,
     Forall (fun e => match e with ELoadStateDict strict => strict = false | _ => True end)
       (trace (snd (DeOldify.convert_deoldify_to_onnx E model_path variant output_dir
                      (World f answers []))))) /\
  (forall model_path w,
     DeOldify.load_model (Scenario.with_load_state_dict (fun _ _ _ => inr report1) E)
       model_path w
     = DeOldify.load_model (Scenario.with_load_state_dict (fun _ _ _ => inr report2) E)
         model_path w).
Proof.
  split.
  - intros model_path variant output_dir.
    assert (H : throughout runtime_call
                  (snd (DeOldify.convert_deoldify_to_onnx E model_path variant output_dir
                          (World f answers [])))).
    { apply ends_well_throughout; [exact I|].
      apply wf_deoldify; try done; [apply runtime_call_routine|apply nothing_yet]. }
    unfold throughout in H. eapply Forall_impl; [exact H|].
    intros e He. by destruct e.
  - intros model_path w. reflexivity.
Qed.

(** C9 does not hold of the code.  Asked for the stable variant, the
    script downloads the stable weights, copies them to the place of the
    artistic weights, builds the deep generator under the artistic name,
    and ends with success: nothing maps the variant to an architecture and
    nothing rejects the mismatch.  On every path, whatever the variant, the
    generator factory is asked for the artistic weights. *)
Theorem stable_weights_are_loaded_as_artistic :
  (forall E model_path variant output_dir f answers,
     Forall (fun e => match e with
                      | EGenInferenceDeep weights_name =>
                          weights_name = "ColorizeArtistic_gen"%string
                      | _ => True
                      end)
       (trace (snd (DeOldify.convert_deoldify_to_onnx E model_path variant output_dir
                      (World f answers []))))) /\
  fst (DeOldify.convert_deoldify_to_onnx Scenario.stable_available None "stable" None
         Scenario.checkout_only) = inr true /\
  attempts (trace (snd (DeOldify.convert_deoldify_to_onnx Scenario.stable_available None
                          "stable" None Scenario.checkout_only)))
  = ["https://data.deepai.org/deoldify/ColorizeStable_gen.pth"]%string /\
  In (ECopy "./models/deoldify/stable.pth" "./DeOldify/models/ColorizeArtistic_gen.pth")
     (trace (snd (DeOldify.convert_deoldify_to_onnx Scenario.stable_available None
                    "stable" None Scenario.checkout_only))) /\
  In (EGenInferenceDeep "ColorizeArtistic_gen")
     (trace (snd (DeOldify.convert_deoldify_to_onnx Scenario.stable_available None
                    "stable" None Scenario.checkout_only))) /\
  fst (DeOldify.main Scenario.stable_available None "stable" Scenario.checkout_only) = 0.
Proof.
  split.
  - intros E model_path variant output_dir f answers.
    assert (H : throughout runtime_call
                  (snd (DeOldify.convert_deoldify_to_onnx E model_path variant output_dir
                          (World f answers [])))).
    { apply ends_well_throughout; [exact I|].
      apply wf_deoldify; try done; [apply runtime_call_routine|apply nothing_yet]. }
    unfold throughout in H. eapply Forall_impl; [exact H|].
    intros e He. by destruct e.
  - vm_compute. repeat split; try done; tauto.
Qed.

End ResolveClaims.

(** ** More on the fetcher *)

Module FetchExtras.
Import Fetcher FetcherFacts.

Lemma read_loop_delivers p body d t w old :
  fs w !! p = Some (File old) ->
  body_error body = None ->
  exists w',
    read_loop p body d t w = (None, w') /\
    fs w' !! p = Some (File (old ++ delivered body)) /\
    forall q, q <> p -> fs w' !! q = fs w !! q.
Proof.
  revert d w old. induction body as [|r body IH]; intros d w old Hold Herr.
  - exists w. simpl. by rewrite app_nil_r.
  - destruct r as [[|b chunk]|e]; simpl in *; [| |done].
    + exists w. by rewrite app_nil_r.
    + edestruct (IH (d + Z.of_nat (S (length chunk)))
                   (print (MProgress (d + Z.of_nat (S (length chunk))) t)
                      (write_chunk p (b :: chunk) w))
                   (old ++ b :: chunk)) as (w' & Hrun & Hfs & Hother); [|exact Herr|].
      { unfold write_chunk. simpl. rewrite Hold. apply lookup_insert_eq. }
      exists w'. split; [exact Hrun|]. split.
      * rewrite Hfs. f_equal. f_equal. by rewrite <- app_assoc.
      * intros q Hq. rewrite (Hother q Hq). unfold write_chunk. simpl.
        by rewrite lookup_insert_ne.
Qed.

Lemma fetch_ok_delivers (E : env) (url dest : string) (w : world) :
  fetch_ok E dest url = true ->
  exists content_length body w',
    urlopen E url = UrlResponse content_length body /\
    download_file E url dest w = (true, w') /\
    fs w' !! dest = Some (File (delivered body)) /\
    last (trace w') = Some (EPrint MDownloadComplete).
Proof.
  unfold fetch_ok, fetch_error_of, download_file, download_body, mkdir.
  cbn [emit print fs stdin trace].
  destruct (mkdir_parents E (parent dest)); [done|].
  destruct (urlopen E url) as [e|cl body]; [done|].
  destruct (open_wb E dest); [done|].
  destruct (body_error body) eqn:Herr; [done|]. intros _.
  exists cl, body.
  match goal with
  | |- context [read_loop dest body 0 ?t ?w0] =>
      destruct (read_loop_delivers dest body 0 t w0 [])
        as (w' & Hrun & Hfs & _); [|exact Herr|]
  end.
  { unfold set_fs. simpl. apply lookup_insert_eq. }
  rewrite Hrun. eexists. split; [done|]. split; [reflexivity|].
  split; [exact Hfs|]. apply last_snoc.
Qed.

(** X1.  A fetch that meets no exception returns [True] and leaves at
    the destination exactly the bytes the response delivered before its
    first empty chunk: whatever was there before is gone. *)
Theorem a_successful_fetch_replaces_the_file
    (E : env) (url dest : string) (w : world) :
  fetch_ok E dest url = true ->
  exists content_length body w',
    urlopen E url = UrlResponse content_length body /\
    download_file E url dest w = (true, w') /\
    fs w' !! dest = Some (File (delivered body)) /\
    last (trace w') = Some (EPrint MDownloadComplete).
Proof.
  unfold fetch_ok, fetch_error_of, download_file, download_body, mkdir.
  cbn [emit print fs stdin trace].
  destruct (mkdir_parents E (parent dest)); [done|].
  destruct (urlopen E url) as [e|cl body]; [done|].
  destruct (open_wb E dest); [done|].
  destruct (body_error body) eqn:Herr; [done|]. intros _.
  exists cl, body.
  match goal with
  | |- context [read_loop dest body 0 ?t ?w0] =>
      destruct (read_loop_delivers dest body 0 t w0 [])
        as (w' & Hrun & Hfs & _); [|exact Herr|]
  end.
  { unfold set_fs. simpl. apply lookup_insert_eq. }
  rewrite Hrun. eexists. split; [done|]. split; [reflexivity|].
  split; [exact Hfs|]. apply last_snoc.
Qed.

Lemma a_successful_fetch_replaces_the_file_witness :
  exists content_length body w',
    urlopen Scenario.second_delivers "https://b.example/m.pth"
    = UrlResponse content_length body /\
    download_file Scenario.second_delivers "https://b.example/m.pth" "./models/m.pth"
      (Scenario.on_disk [("./models/m.pth", File [9; 9; 9; 9; 9])] [])
    = (true, w') /\
    fs w' !! "./models/m.pth" = Some (File (delivered body)) /\
    last (trace w') = Some (EPrint MDownloadComplete).
Proof.
  apply (a_successful_fetch_replaces_the_file Scenario.second_delivers
           "https://b.example/m.pth" "./models/m.pth"
           (Scenario.on_disk [("./models/m.pth", File [9; 9; 9; 9; 9])] [])).
  reflexivity.
Defined.

Lemma length_rev_app s1 s2 :
  String.length (String.rev_app s1 s2) = (String.length s1 + String.length s2)%nat.
Proof.
  revert s2. induction s1 as [|c s1 IH]; intros s2; simpl; [done|].
  rewrite IH. simpl. lia.
Qed.

Lemma length_rev s : String.length (String.rev s) = String.length s.
Proof. unfold String.rev. rewrite length_rev_app. simpl. lia. Qed.

Lemma length_drop_component r :
  r <> EmptyString -> (String.length (drop_component r) < String.length r)%nat.
Proof.
  induction r as [|c r IH]; [done|]. intros _. simpl.
  assert (Hle : (String.length (drop_component r) <= String.length r)%nat).
  { destruct r as [|c' r']; [simpl; lia|]. apply Nat.lt_le_incl, IH. done. }
  destruct c as [[] [] [] [] [] [] [] []]; simpl; lia.
Qed.

Lemma parent_is_another_path p : p <> EmptyString -> parent p <> p.
Proof.
  intros Hp Heq. assert (Hlen : String.length (parent p) = String.length p) by by rewrite Heq.
  unfold parent in Hlen. rewrite length_rev in Hlen.
  assert (Hrev : String.rev p <> EmptyString).
  { intros H0. apply (f_equal String.length) in H0. rewrite length_rev in H0.
    destruct p; [done|]. simpl in H0. lia. }
  pose proof (length_drop_component (String.rev p) Hrev) as Hlt.
  rewrite length_rev in Hlt. lia.
Qed.

(** X2.  When opening the URL raises (an HTTP error status, a refused
    connection), the fetch fails before the destination is opened: a file
    already at the destination keeps its content. *)
Theorem a_refused_fetch_leaves_the_file
    (E : env) (url dest : string) (w : world) (e : exn) :
  dest <> EmptyString ->
  urlopen E url = UrlRaises e ->
  exists w',
    download_file E url dest w = (false, w') /\
    fs w' !! dest = fs w !! dest /\
    ~ In (EOpenWb dest) (skipn (length (trace w)) (trace w')).
Proof.
  intros Hdest Hurl. unfold download_file, download_body, mkdir.
  cbn [emit print fs stdin trace]. rewrite Hurl.
  pose proof (parent_is_another_path dest Hdest) as Hne.
  destruct (mkdir_parents E (parent dest)) as [e'|].
  - eexists. split; [reflexivity|]. split; [done|].
    simpl. rewrite <- ?app_assoc, drop_app_length. simpl.
    intros [H|[H|[H|[]]]]; try done; destruct e'; simpl in H; repeat case_match; done.
  - destruct (fs w !! parent dest) eqn:Hp; cbn [print emit set_fs fs stdin trace].
    + eexists. split; [reflexivity|]. split; [done|].
      simpl. rewrite <- ?app_assoc, drop_app_length. simpl.
      intros [H|[H|[H|[H|[]]]]]; try done; destruct e; simpl in H; repeat case_match; done.
    + eexists. split; [reflexivity|]. split; [simpl; by rewrite lookup_insert_ne|].
      simpl. rewrite <- ?app_assoc, drop_app_length. simpl.
      intros [H|[H|[H|[H|[]]]]]; try done; destruct e; simpl in H; repeat case_match; done.
Qed.

Lemma a_refused_fetch_leaves_the_file_witness :
  exists w',
    download_file Scenario.base "https://a.example/m.pth" "./models/m.pth"
      (Scenario.on_disk [("./models/m.pth", File [9; 9; 9; 9; 9])] [])
    = (false, w') /\
    fs w' !! "./models/m.pth"
    = fs (Scenario.on_disk [("./models/m.pth", File [9; 9; 9; 9; 9])] []) !! "./models/m.pth" /\
    ~ In (EOpenWb "./models/m.pth")
        (skipn (length (trace (Scenario.on_disk [("./models/m.pth", File [9; 9; 9; 9; 9])] [])))
           (trace w')).
Proof.
  apply (a_refused_fetch_leaves_the_file Scenario.base "https://a.example/m.pth"
           "./models/m.pth"
           (Scenario.on_disk [("./models/m.pth", File [9; 9; 9; 9; 9])] [])
           (HTTPError 404)).
  - discriminate.
  - reflexivity.
Defined.





End FetchExtras.

(** ** More on the locators *)

Module LocateExtras.
Import Fetcher FetcherFacts FetchExtras Locator LocatorFacts.

Lemma download_file_written E url dest w w' :
  download_file E url dest w = (true, w') -> path_exists dest w' = true.
Proof.
  intros Hd. pose proof (download_file_ok E url dest w) as Hok.
  rewrite Hd in Hok. simpl in Hok. symmetry in Hok.
  destruct (fetch_ok_delivers E url dest w Hok)
    as (cl & body & w1 & _ & Hrun & Hfs & _).
  rewrite Hd in Hrun. injection Hrun as <-. unfold path_exists. by rewrite Hfs.
Qed.

Lemma try_urls_written E urls dest w w' :
  try_urls E urls dest w = (true, w') -> path_exists dest w' = true.
Proof.
  revert w. induction urls as [|url urls IH]; intros w; simpl; [done|].
  destruct (download_file E url dest w) as [[|] w1] eqn:Hd.
  - intros [= <-]. by eapply download_file_written.
  - apply IH.
Qed.

(** How [locate] comes to a path: a local candidate that was there, with
    the disk untouched, or the default path after a download. *)
Lemma locate_located E paths sources dest w p w' :
  locate E paths sources dest w = (inr (Located p), w') ->
  (List.find (fun q => path_exists q w) (map (expanduser E) paths) = Some p /\
   fs w' = fs w) \/
  (List.find (fun q => path_exists q w) (map (expanduser E) paths) = None /\
   p = dest /\ path_exists dest w' = true).
Proof.
  unfold locate. rewrite probe_spec.
  destruct (List.find _ _) as [p0|] eqn:Hfind.
  - intros [= <- <-]. left. done.
  - destruct (input _) as [[e|answer] w1]; [done|].
    destruct (String.eqb _ _); [|done].
    destruct (try_urls E (map snd sources) dest w1) as [[|] w2] eqn:Ht; [|done].
    intros [= <- <-]. right. repeat split. by eapply try_urls_written.
Qed.

Lemma find_path_exists paths (w : world) p :
  List.find (fun q => path_exists q w) paths = Some p -> path_exists p w = true.
Proof. intros H. by apply find_some in H as [_ H]. Qed.

Lemma same_disk_same_find paths (w1 w2 : world) :
  fs w1 = fs w2 ->
  List.find (fun q => path_exists q w1) paths = List.find (fun q => path_exists q w2) paths.
Proof.
  intros Hfs. induction paths as [|q paths IH]; simpl; [done|].
  unfold path_exists at 1 3. rewrite Hfs. by rewrite IH.
Qed.

Lemma locate_again E first others sources dest w p w' answers t :
  expanduser E first = dest ->
  locate E (first :: others) sources dest w = (inr (Located p), w') ->
  fst (locate E (first :: others) sources dest (World (fs w') answers t))
  = inr (Located p) /\
  stdin (snd (locate E (first :: others) sources dest (World (fs w') answers t)))
  = answers /\
  attempts (trace (snd (locate E (first :: others) sources dest (World (fs w') answers t))))
  = attempts t.
Proof.
  intros Hfirst Hrun.
  apply (locate_local_hit E (first :: others) sources dest (World (fs w') answers t) p).
  destruct (locate_located _ _ _ _ _ _ _ Hrun) as [[Hfind Hfs]|(Hfind & -> & Hex)].
  - rewrite <- Hfind. apply same_disk_same_find. simpl. exact Hfs.
  - simpl. rewrite Hfirst. unfold path_exists at 1. simpl.
    unfold path_exists in Hex. by destruct (fs w' !! dest).
Qed.

Lemma deoldify_located E variant w p w' :
  DeOldify.locate E variant w = (inr (Located p), w') ->
  (List.find (fun q => path_exists q w)
     (map (expanduser E) (DeOldify.possible_paths variant)) = Some p /\
   fs w' = fs w) \/
  (List.find (fun q => path_exists q w)
     (map (expanduser E) (DeOldify.possible_paths variant)) = None /\
   p = DeOldify.default_model_path variant /\
   path_exists (DeOldify.default_model_path variant) w' = true).
Proof.
  unfold DeOldify.locate. rewrite probe_spec.
  destruct (List.find _ _) as [p0|] eqn:Hfind.
  - intros [= <- <-]. left. done.
  - match goal with
    | |- context [if path_exists DeOldify.deoldify_repo ?w0 then _ else _] =>
        destruct (if path_exists DeOldify.deoldify_repo w0
                  then (None, w0) else clone E DeOldify.deoldify_repo w0)
          as [[e|] w1]
    end; [destruct e; done|].
    destruct (DeOldify.download_urls variant) as [e|urls]; [done|].
    destruct (try_urls E urls (DeOldify.default_model_path variant) w1)
      as [[|] w2] eqn:Ht.
    { intros [= <- <-]. right. repeat split. by eapply try_urls_written. }
    destruct (DeOldify.search_dirs _ _ w2) as [[found|] w3]; [|done].
    destruct (mkdir E _ w3) as [[e|] w4]; [done|].
    unfold copy2. cbn [emit fs].
    destruct (fs w4 !! found) as [[content|]|]; try done.
    intros [= <- <-]. right. repeat split.
    unfold path_exists. simpl. by rewrite lookup_insert_eq.
Qed.

Lemma deoldify_locate_again E variant w p w' answers t :
  DeOldify.locate E variant w = (inr (Located p), w') ->
  fst (DeOldify.locate E variant (World (fs w') answers t)) = inr (Located p) /\
  attempts (trace (snd (DeOldify.locate E variant (World (fs w') answers t))))
  = attempts t.
Proof.
  intros Hrun.
  apply (DeOldifyLocatorFacts.deoldify_local_hit E variant (World (fs w') answers t) p).
  destruct (deoldify_located _ _ _ _ _ Hrun) as [[Hfind Hfs]|(Hfind & -> & Hex)].
  - rewrite <- Hfind. apply same_disk_same_find. simpl. exact Hfs.
  - simpl. unfold path_exists at 1. simpl.
    unfold path_exists in Hex. by destruct (fs w' !! _).
Qed.

(** X4.  A path [locate] returns is on disk when it returns: the
    interactive locator of the FBCNN, SCUNet and Zero-DCE scripts and the
    DeOldify locator never hand the loader a path that does not exist. *)
Theorem a_located_path_exists (E : env) (w : world) (p : string) (w' : world) :
  (forall possible_paths sources dest,
     locate E possible_paths sources dest w = (inr (Located p), w') ->
     path_exists p w' = true) /\
  (forall variant,
     DeOldify.locate E variant w = (inr (Located p), w') ->
     path_exists p w' = true).
Proof.
  split.
  - intros paths sources dest Hrun.
    destruct (locate_located _ _ _ _ _ _ _ Hrun) as [[Hfind Hfs]|(_ & -> & Hex)]; [|done].
    apply find_path_exists in Hfind. unfold path_exists in *. by rewrite Hfs.
  - intros variant Hrun.
    destruct (deoldify_located _ _ _ _ _ Hrun) as [[Hfind Hfs]|(_ & -> & Hex)]; [|done].
    apply find_path_exists in Hfind. unfold path_exists in *. by rewrite Hfs.
Qed.

Lemma a_located_path_exists_witness :
  path_exists "./models/m.pth"
    (snd (locate Scenario.second_delivers ["./m.pth"]
            [("A", "https://a.example/m.pth"); ("B", "https://b.example/m.pth")]
            "./models/m.pth" (Scenario.on_disk [] ["y"])))
  = true.
Proof.
  apply (proj1 (a_located_path_exists Scenario.second_delivers
                  (Scenario.on_disk [] ["y"]) "./models/m.pth"
                  (snd (locate Scenario.second_delivers ["./m.pth"]
                          [("A", "https://a.example/m.pth"); ("B", "https://b.example/m.pth")]
                          "./models/m.pth" (Scenario.on_disk [] ["y"]))))
           ["./m.pth"]
           [("A", "https://a.example/m.pth"); ("B", "https://b.example/m.pth")]
           "./models/m.pth").
  vm_compute. reflexivity.
Defined.

(** X5.  Locating is stable.  Once a script has located its model, by a
    local hit or by a download, a later run on the disk it left returns
    the same path without attempting a fetch (and, in the interactive
    scripts, without reading an answer): the default path a download
    writes to is the first local candidate. *)
Theorem a_second_run_locates_the_same_file
    (E : env) (w : world) (p : string) (w' : world)
    (answers : list string) (t : list event) :
  (forall quality_factor,
     FBCNN.locate E quality_factor w = (inr (Located p), w') ->
     fst (FBCNN.locate E quality_factor (World (fs w') answers t)) = inr (Located p) /\
     stdin (snd (FBCNN.locate E quality_factor (World (fs w') answers t))) = answers /\
     attempts (trace (snd (FBCNN.locate E quality_factor (World (fs w') answers t))))
     = attempts t) /\
  (SCUNet.locate E w = (inr (Located p), w') ->
   fst (SCUNet.locate E (World (fs w') answers t)) = inr (Located p) /\
   stdin (snd (SCUNet.locate E (World (fs w') answers t))) = answers /\
   attempts (trace (snd (SCUNet.locate E (World (fs w') answers t)))) = attempts t) /\
  (forall variant,
     ZeroDCE.locate E variant w = (inr (Located p), w') ->
     fst (ZeroDCE.locate E variant (World (fs w') answers t)) = inr (Located p) /\
     stdin (snd (ZeroDCE.locate E variant (World (fs w') answers t))) = answers /\
     attempts (trace (snd (ZeroDCE.locate E variant (World (fs w') answers t))))
     = attempts t) /\
  (forall variant,
     DeOldify.locate E variant w = (inr (Located p), w') ->
     fst (DeOldify.locate E variant (World (fs w') answers t)) = inr (Located p) /\
     attempts (trace (snd (DeOldify.locate E variant (World (fs w') answers t))))
     = attempts t).
Proof.
  split; [|split; [|split]].
  - intros quality_factor. unfold FBCNN.locate, FBCNN.possible_paths.
    apply locate_again. reflexivity.
  - unfold SCUNet.locate, SCUNet.possible_paths. apply locate_again. reflexivity.
  - intros variant. unfold ZeroDCE.locate, ZeroDCE.possible_paths.
    apply locate_again. reflexivity.
  - intros variant. apply deoldify_locate_again.
Qed.

Lemma a_second_run_locates_the_same_file_witness :
  fst (SCUNet.locate Scenario.base
         (World (fs (snd (SCUNet.locate Scenario.base
                            (Scenario.on_disk [("./scunet.pth", File [1])] []))))
            [] []))
  = inr (Located "./scunet.pth") /\
  stdin (snd (SCUNet.locate Scenario.base
                (World (fs (snd (SCUNet.locate Scenario.base
                                   (Scenario.on_disk [("./scunet.pth", File [1])] []))))
                   [] [])))
  = [] /\
  attempts (trace (snd (SCUNet.locate Scenario.base
                          (World (fs (snd (SCUNet.locate Scenario.base
                                             (Scenario.on_disk [("./scunet.pth", File [1])] []))))
                             [] []))))
  = attempts [].
Proof.
  apply (proj1 (proj2 (a_second_run_locates_the_same_file Scenario.base
                         (Scenario.on_disk [("./scunet.pth", File [1])] [])
                         "./scunet.pth"
                         (snd (SCUNet.locate Scenario.base
                                 (Scenario.on_disk [("./scunet.pth", File [1])] [])))
                         [] []))).
  vm_compute. reflexivity.
Defined.

End LocateExtras.

(** ** More on the DeOldify locator *)

Module DeOldifyExtras.
Import Fetcher FetcherFacts Locator LocatorFacts DeOldifyLocatorFacts DeOldify Pipeline.

Lemma find_app {A} (f : A -> bool) (l1 l2 : list A) :
  List.find f (l1 ++ l2)
  = match List.find f l1 with Some x => Some x | None => List.find f l2 end.
Proof. induction l1 as [|x l1 IH]; simpl; [done|]. by destruct (f x). Qed.

Lemma search_names_spec dir names w :
  fst (search_names dir names w)
  = List.find (fun q => path_exists q w) (map (path_join dir) names) /\
  fs (snd (search_names dir names w)) = fs w.
Proof.
  revert w. induction names as [|n names IH]; intros w; simpl; [done|].
  change (path_exists (path_join dir n) (emit (EExists (path_join dir n)) w))
    with (path_exists (path_join dir n) w).
  destruct (path_exists (path_join dir n) w); [done|].
  destruct (IH (emit (EExists (path_join dir n)) w)) as [-> ->]. done.
Qed.

Lemma search_names_on_disk dir names w :
  fst (search_names dir names w)
  = List.find (fun q => match fs w !! q with Some _ => true | None => false end)
      (map (path_join dir) names) /\
  fs (snd (search_names dir names w)) = fs w.
Proof. apply search_names_spec. Qed.

(** X6.  Step 3 of the DeOldify locator returns the first model file of
    a walk that takes the search directories in order, skips those that
    do not exist, and tries the names of the variant in order inside each;
    it changes nothing on disk. *)
Theorem the_search_takes_the_first_file_in_order
    (search_paths names : list string) (w : world) :
  fst (search_dirs search_paths names w)
  = search_spec (fun q => path_exists q w) search_paths names /\
  fs (snd (search_dirs search_paths names w)) = fs w.
Proof.
  unfold search_spec, path_exists. revert w.
  induction search_paths as [|d dirs IH]; intros w; simpl; [done|].
  unfold path_exists. cbn [emit fs].
  destruct (fs w !! d) as [n|] eqn:Hd.
  - rewrite find_app.
    destruct (search_names_on_disk d names (emit (EExists d) w)) as [Hfound Hfs].
    destruct (search_names d names (emit (EExists d) w)) as [[found|] w1];
      cbn [fst snd emit fs] in Hfound, Hfs.
    + rewrite <- Hfound. by split.
    + rewrite <- Hfound. destruct (IH w1) as [-> ->]. by rewrite Hfs.
  - destruct (IH (emit (EExists d) w)) as [-> ->]. done.
Qed.

(** X7.  Without a checkout of the DeOldify repository and with a
    [git clone] that fails, the DeOldify locator gives up before it
    fetches anything: no URL is tried (whatever the URLs would have
    delivered), the disk and the standard input are as they were.  A clone
    that exits with an error ends the search with NotFound; any other
    failure of the call (git not installed, say) leaves the locator as the
    exception it is. *)
Theorem a_failed_clone_ends_the_search
    (E : env) (variant : string) (w : world) (e : exn) :
  List.find (fun p => path_exists p w) (map (expanduser E) (possible_paths variant))
  = None ->
  path_exists deoldify_repo w = false ->
  git_clone E = inl e ->
  fst (locate E variant w)
  = match e with CalledProcessError _ => inr NotFound | _ => inl e end /\
  fs (snd (locate E variant w)) = fs w /\
  stdin (snd (locate E variant w)) = stdin w /\
  attempts (trace (snd (locate E variant w))) = attempts (trace w).
Proof.
  intros Hfind Hrepo Hclone. unfold locate. rewrite probe_spec, Hfind.
  unfold clone. rewrite Hclone.
  change (path_exists deoldify_repo
            (emit (EExists deoldify_repo) (print MModelNotFound (World (fs w) (stdin w)
               (trace w ++ map EExists
                  (through_first (fun p => path_exists p w)
                     (map (expanduser E) (possible_paths variant))))))))
    with (path_exists deoldify_repo w).
  rewrite Hrepo.
  destruct e; cbn [fst snd print emit fs stdin trace];
    rewrite !attempts_app, attempts_exists; cbn; by rewrite ?app_nil_r.
Qed.

Lemma a_failed_clone_ends_the_search_witness :
  fst (locate Scenario.base "stable" Scenario.nothing) = inr NotFound /\
  fs (snd (locate Scenario.base "stable" Scenario.nothing)) = fs Scenario.nothing /\
  stdin (snd (locate Scenario.base "stable" Scenario.nothing)) = stdin Scenario.nothing /\
  attempts (trace (snd (locate Scenario.base "stable" Scenario.nothing)))
  = attempts (trace Scenario.nothing).
Proof.
  apply (a_failed_clone_ends_the_search Scenario.base "stable" Scenario.nothing
           (CalledProcessError "fatal: unable to access")).
  - vm_compute. reflexivity.
  - vm_compute. reflexivity.
  - reflexivity.
Defined.

End DeOldifyExtras.

(** ** The remaining scripts, and how every script ends *)

Module ScriptExtras.
Import Fetcher Locator Pipeline TraceFacts.

Section MoreScripts.

Variable Q : event -> Prop.
Hypothesis Q_routine : forall e, routine e = true -> Q e.
Hypothesis Q_export : forall m p o, in_training m = false -> Q (EOnnxExport m p o).

Lemma wf_check_dependencies E packages w :
  throughout Q w -> throughout Q (snd (check_dependencies E packages w)).
Proof.
  intros Hw. unfold check_dependencies. case_match; [done|].
  apply wf_emit; [by apply Q_routine|done].
Qed.

Lemma wf_torch_tail E keys p onnx_dir w :
  throughout Q w ->
  ends_well Q
    (match load_model E keys p w with
     | (None, w) => (inr false, w)
     | (Some model, w) => export_and_verify E model onnx_dir w
     end).
Proof.
  intros Hw. destruct (wf_load_model Q Q_routine E keys p w Hw) as [Ht Hm].
  destruct (load_model E keys p w) as [[m|] w3]; simpl in *; [|done].
  apply wf_export_and_verify; [done|done|by apply Hm|done].
Qed.

Lemma wf_scunet E model_path output_dir w :
  throughout Q w ->
  ends_well Q (SCUNet.convert_scunet_to_onnx E model_path output_dir w).
Proof.
  intros Hw. unfold SCUNet.convert_scunet_to_onnx.
  pose proof (wf_make_output_dirs Q Q_routine E
                (default "./models/scunet"%string output_dir) w Hw) as Hd.
  destruct (make_output_dirs E _ w) as [[e|] w1]; simpl in Hd; [done|].
  apply wf_outer_handler; [done|]. unfold SCUNet.convert_body.
  assert (Hl : throughout Q
                 (snd (match model_path with
                       | Some p => (inr (Located p), w1)
                       | None => SCUNet.locate E w1
                       end))).
  { destruct model_path; [done|]. by apply wf_locate. }
  destruct (match model_path with
            | Some p => (inr (Located p), w1)
            | None => SCUNet.locate E w1
            end) as [[e|[p|]] w2]; simpl in Hl; try done.
  by apply wf_torch_tail.
Qed.

Lemma wf_zero_dce E model_path variant output_dir w :
  throughout Q w ->
  ends_well Q (ZeroDCE.convert_zero_dce_to_onnx E model_path variant output_dir w).
Proof.
  intros Hw. unfold ZeroDCE.convert_zero_dce_to_onnx.
  pose proof (wf_make_output_dirs Q Q_routine E
                (default ("./models/" +:+ replace_char "-" "_" variant) output_dir)
                w Hw) as Hd.
  destruct (make_output_dirs E _ w) as [[e|] w1]; simpl in Hd; [done|].
  apply wf_outer_handler; [done|]. unfold ZeroDCE.convert_body.
  assert (Hl : throughout Q
                 (snd (match model_path with
                       | Some p => (inr (Located p), w1)
                       | None => ZeroDCE.locate E variant w1
                       end))).
  { destruct model_path; [done|]. by apply wf_locate. }
  destruct (match model_path with
            | Some p => (inr (Located p), w1)
            | None => ZeroDCE.locate E variant w1
            end) as [[e|[p|]] w2]; simpl in Hl; try done.
  by apply wf_torch_tail.
Qed.

Lemma wf_quantize_step E onnx_dir w :
  throughout Q w -> throughout Q (AIDetector.quantize_step E onnx_dir w).
Proof.
  intros Hw. unfold AIDetector.quantize_step.
  repeat case_match; unfold print;
    repeat first [ assumption | apply wf_set_fs
                 | apply wf_emit; [apply Q_routine; reflexivity|] ].
Qed.

Lemma wf_ai_detector E model_id output_dir quantize w :
  throughout Q w ->
  ends_well Q (AIDetector.convert_model_to_onnx E model_id output_dir quantize w).
Proof.
  intros Hw. unfold AIDetector.convert_model_to_onnx.
  case_match; simpl; [apply wf_emit; [by apply Q_routine|done]|].
  pose proof (wf_make_output_dirs Q Q_routine E
                (default ("./models/" +:+ replace_char "/" "_" model_id) output_dir)
                w Hw) as Hd.
  destruct (make_output_dirs E _ w) as [[e|] w1]; simpl in Hd; [done|].
  apply wf_outer_handler; [done|]. unfold AIDetector.convert_body.
  destruct (hub_from_pretrained E model_id) as [e|].
  { simpl. apply wf_emit; [by apply Q_routine|done]. }
  destruct (ort_export E model_id) as [e|graph]; cbv zeta.
  { simpl. repeat (apply wf_emit; [by apply Q_routine|]). done. }
  eexists. split; [reflexivity|].
  assert (Hg : forall w0, throughout Q w0 ->
                 throughout Q (if quantize
                               then AIDetector.quantize_step E
                                      (path_join (default ("./models/" +:+ replace_char "/" "_" model_id) output_dir) "onnx") w0
                               else w0)).
  { intros w0 Hw0. destruct quantize; [by apply wf_quantize_step|done]. }
  apply Hg. unfold print.
  repeat first [ assumption | apply wf_set_fs
               | apply wf_emit; [apply Q_routine; reflexivity|] ].
Qed.

End MoreScripts.

Lemma anything w : throughout (fun _ => True) w.
Proof. unfold throughout. by apply Forall_forall. Qed.

Lemma started E f answers b w :
  check_dependencies E torch_packages (World f answers []) = (b, w) ->
  throughout not_done w.
Proof.
  intros H. change w with (snd (b, w)). rewrite <- H.
  apply wf_check_dependencies; [apply RunClaims.not_done_routine|].
  apply RunClaims.nothing_yet.
Qed.

Lemma returned_true_as_reported r :
  ends_well not_done r ->
  fst r = inr true <-> In (EPrint MConversionComplete) (trace (snd r)).
Proof.
  intros Hr.
  assert (Hnot : forall w, throughout not_done w ->
                   ~ In (EPrint MConversionComplete) (trace w)).
  { intros w Hw Hin. unfold throughout in Hw. rewrite Forall_forall in Hw.
    apply list_elem_of_In, Hw in Hin. by apply Hin. }
  destruct r as [[e|[|]] w]; simpl in *.
  - split; [done|]. intros Hin. by apply Hnot in Hin.
  - destruct Hr as (w' & -> & _). split; [|done]. intros _.
    simpl. apply in_or_app. right. by left.
  - split; [done|]. intros Hin. by apply Hnot in Hin.
Qed.

(** X8.  The torch scripts import torch before anything else, so a run
    that reaches [main] has it.  When [onnx] or [onnxruntime] cannot be
    imported, every one of the five command lines prints the install
    names of the missing packages and exits with code 1, and that is all
    it does: the disk is not touched, nothing is read from the standard
    input, nothing is fetched. *)
Theorem a_missing_package_ends_the_run_at_once (E : env) (w : world) :
  importable E "torch" = true ->
  importable E "onnx" = false \/ importable E "onnxruntime" = false ->
  exists missing,
    (forall p, In p missing
               <-> (p = "onnx"%string \/ p = "onnxruntime"%string)
                   /\ importable E p = false) /\
    let w' := World (fs w) (stdin w)
                (trace w ++ [EPrint (MMissingPackages missing); EExit 1]) in
    (forall model_path variant, DeOldify.main E model_path variant w = (1, w')) /\
    (forall model_path quality, FBCNN.main E model_path quality w = (1, w')) /\
    (forall model_path, SCUNet.main E model_path w = (1, w')) /\
    (forall model_path variant, ZeroDCE.main E model_path variant w = (1, w')) /\
    RealESRGANCli.main E w = (1, w').
Proof.
  intros Htorch Hmissing.
  set (missing := (if importable E "onnx" then [] else ["onnx"%string])
                  ++ (if importable E "onnxruntime" then [] else ["onnxruntime"%string])).
  assert (Hcheck : check_dependencies E torch_packages w
                   = (false, print (MMissingPackages missing) w)).
  { unfold check_dependencies, torch_packages, missing.
    cbn [filter list_filter fst snd map]. rewrite Htorch.
    destruct (importable E "onnx") eqn:Honnx, (importable E "onnxruntime") eqn:Hort;
      [destruct Hmissing; discriminate|..]; vm_compute; reflexivity. }
  exists missing. split.
  - intros p. unfold missing.
    destruct (importable E "onnx") eqn:Honnx, (importable E "onnxruntime") eqn:Hort;
      simpl; (split; [intros Hin|intros [[->| ->] Hp]]);
      try (destruct Hmissing; discriminate);
      intuition (subst; auto; congruence).
  - unfold DeOldify.main, FBCNN.main, SCUNet.main, ZeroDCE.main, RealESRGANCli.main.
    rewrite Hcheck. unfold print, emit. simpl. rewrite <- app_assoc. done.
Qed.

Lemma a_missing_package_ends_the_run_at_once_witness :
  exists missing,
    (forall p, In p missing
               <-> (p = "onnx"%string \/ p = "onnxruntime"%string)
                   /\ importable Machines.without_onnxruntime p = false) /\
    let w' := World (fs Scenario.nothing) (stdin Scenario.nothing)
                (trace Scenario.nothing
                 ++ [EPrint (MMissingPackages missing); EExit 1]) in
    (forall model_path variant,
       DeOldify.main Machines.without_onnxruntime model_path variant Scenario.nothing
       = (1, w')) /\
    (forall model_path quality,
       FBCNN.main Machines.without_onnxruntime model_path quality Scenario.nothing
       = (1, w')) /\
    (forall model_path,
       SCUNet.main Machines.without_onnxruntime model_path Scenario.nothing = (1, w')) /\
    (forall model_path variant,
       ZeroDCE.main Machines.without_onnxruntime model_path variant Scenario.nothing
       = (1, w')) /\
    RealESRGANCli.main Machines.without_onnxruntime Scenario.nothing = (1, w').
Proof.
  apply (a_missing_package_ends_the_run_at_once Machines.without_onnxruntime
           Scenario.nothing).
  - reflexivity.
  - right. reflexivity.
Defined.

Lemma ended_as_reported w :
  throughout not_done w ->
  let r := (1, emit (EExit 1) w) in
  (fst r = 0 <-> In (EPrint MConversionComplete) (trace (snd r))) /\
  (fst r = 0 \/ fst r = 1) /\
  last (trace (snd r)) = Some (EExit (fst r)).
Proof.
  intros Hw. apply (RunClaims.exited_as_reported (inl (Exception "EOFError"), w)). done.
Qed.

(** X9.  The SCUNet, Zero-DCE and Real-ESRGAN command lines end with exit
    code 0 exactly when the run printed its closing line, and with exit
    code 1 otherwise; the exit is the last thing a run does.  A
    Real-ESRGAN run whose standard input is at its end when the variant is
    asked for is one of the runs that end with 1.  The AI-detector
    conversion returns [True] exactly when it printed the closing line. *)
Theorem the_other_command_lines_exit_zero_exactly_when_done
    (E : env) (f : gmap string node) (answers : list string) :
  (forall model_path,
     let r := SCUNet.main E model_path (World f answers []) in
     (fst r = 0 <-> In (EPrint MConversionComplete) (trace (snd r))) /\
     (fst r = 0 \/ fst r = 1) /\
     last (trace (snd r)) = Some (EExit (fst r))) /\
  (forall model_path variant,
     let r := ZeroDCE.main E model_path variant (World f answers []) in
     (fst r = 0 <-> In (EPrint MConversionComplete) (trace (snd r))) /\
     (fst r = 0 \/ fst r = 1) /\
     last (trace (snd r)) = Some (EExit (fst r))) /\
  (let r := RealESRGANCli.main E (World f answers []) in
   (fst r = 0 <-> In (EPrint MConversionComplete) (trace (snd r))) /\
   (fst r = 0 \/ fst r = 1) /\
   last (trace (snd r)) = Some (EExit (fst r)) /\
   (answers = [] -> fst r = 1)) /\
  (forall model_id output_dir quantize,
     let r := AIDetector.convert_model_to_onnx E model_id output_dir quantize
                (World f answers []) in
     fst r = inr true <-> In (EPrint MConversionComplete) (trace (snd r))).
Proof.
  split; [|split; [|split]].
  - intros model_path. unfold SCUNet.main.
    destruct (check_dependencies E torch_packages (World f answers []))
      as [[|] w] eqn:Hc; apply started in Hc.
    + apply RunClaims.exited_as_reported, wf_scunet; try done.
      apply RunClaims.not_done_routine.
    + by apply ended_as_reported.
  - intros model_path variant. unfold ZeroDCE.main.
    destruct (check_dependencies E torch_packages (World f answers []))
      as [[|] w] eqn:Hc; apply started in Hc.
    + apply RunClaims.exited_as_reported, wf_zero_dce; try done.
      apply RunClaims.not_done_routine.
    + by apply ended_as_reported.
  - unfold RealESRGANCli.main.
    destruct (check_dependencies E torch_packages (World f answers []))
      as [[|] w] eqn:Hc.
    + pose proof (started _ _ _ _ _ Hc) as Hw.
      assert (Hstdin : stdin w = answers).
      { revert Hc. unfold check_dependencies. case_match; [|done]. by intros [= <-]. }
      pose proof (wf_input not_done RunClaims.not_done_routine w Hw) as Hi.
      unfold input in *. cbn [emit stdin] in *. rewrite Hstdin in Hi |- *.
      destruct answers as [|answer rest]; cbn [snd] in Hi.
      * destruct (ended_as_reported _ Hi) as (H1 & H2 & H3). done.
      * cbv zeta. cbn [snd] in Hi.
        match goal with
        | |- context [exit_with ?r] =>
            destruct (RunClaims.exited_as_reported r) as (H1 & H2 & H3)
        end.
        { apply wf_realesrgan; try done. apply RunClaims.not_done_routine. }
        done.
    + apply started in Hc. destruct (ended_as_reported _ Hc) as (H1 & H2 & H3). done.
  - intros model_id output_dir quantize. apply returned_true_as_reported.
    apply wf_ai_detector; [apply RunClaims.not_done_routine|apply RunClaims.nothing_yet].
Qed.

(** X10.  Whatever the collaborators do, every model the SCUNet and
    Zero-DCE conversions and the Real-ESRGAN command line hand to
    [torch.onnx.export] is in evaluation mode. *)
Theorem the_other_scripts_export_in_evaluation_mode
    (E : env) (f : gmap string node) (answers : list string) :
  (forall model_path output_dir,
     Forall (fun m => in_training m = false)
       (exported (trace (snd (SCUNet.convert_scunet_to_onnx E model_path output_dir
                                (World f answers [])))))) /\
  (forall model_path variant output_dir,
     Forall (fun m => in_training m = false)
       (exported (trace (snd (ZeroDCE.convert_zero_dce_to_onnx E model_path variant
                                output_dir (World f answers [])))))) /\
  Forall (fun m => in_training m = false)
    (exported (trace (snd (RealESRGANCli.main E (World f answers []))))).
Proof.
  split; [|split].
  - intros. apply runtime_call_exported, RunClaims.ends_well_throughout; [exact I|].
    apply wf_scunet; try done;
      [apply RunClaims.runtime_call_routine|apply RunClaims.nothing_yet].
  - intros. apply runtime_call_exported, RunClaims.ends_well_throughout; [exact I|].
    apply wf_zero_dce; try done;
      [apply RunClaims.runtime_call_routine|apply RunClaims.nothing_yet].
  - apply runtime_call_exported. unfold RealESRGANCli.main.
    assert (Hc : throughout runtime_call
                   (snd (check_dependencies E torch_packages (World f answers [])))).
    { apply wf_check_dependencies;
        [apply RunClaims.runtime_call_routine|apply RunClaims.nothing_yet]. }
    destruct (check_dependencies E torch_packages (World f answers [])) as [[|] w];
      cbn [snd] in Hc.
    + pose proof (wf_input runtime_call RunClaims.runtime_call_routine w Hc) as Hi.
      destruct (input w) as [[e|answer] w1]; cbn [snd] in Hi.
      * apply (wf_emit runtime_call); done.
      * cbv zeta.
        match goal with
        | |- context [exit_with ?r] =>
            assert (Hr : ends_well runtime_call r)
              by (apply wf_realesrgan; try done; apply RunClaims.runtime_call_routine);
            destruct r as [[e|[|]] w2]
        end; simpl in Hr |- *;
          [|destruct Hr as (w3 & -> & Hr); simpl|];
          repeat (apply Forall_app; split); try exact Hr; by repeat constructor.
    + by apply (wf_emit runtime_call).
Qed.

Lemma verify_onnx_disk E p w : fs (verify_onnx E p w) = fs w.
Proof. unfold verify_onnx. by repeat case_match. Qed.

Lemma export_and_verify_graph E model onnx_dir w w' :
  export_and_verify E model onnx_dir w = (inr true, w') ->
  exists graph,
    onnx_export E model = inr graph /\
    fs w' !! path_join onnx_dir "model.onnx" = Some (File graph).
Proof.
  unfold export_and_verify, export_onnx.
  destruct (onnx_export E model) as [e|graph]; [done|].
  intros [= <-]. exists graph. split; [done|].
  cbn [print emit fs]. rewrite verify_onnx_disk. cbn [print emit set_fs fs].
  apply lookup_insert_eq.
Qed.

Lemma torch_tail_graph E keys p onnx_dir w w' :
  (let '(b, w) :=
     outer_handler
       match load_model E keys p w with
       | (None, w) => (inr false, w)
       | (Some model, w) => export_and_verify E model onnx_dir w
       end in
   (@inr exn bool b, w)) = (inr true, w') ->
  exists model graph,
    in_training model = false /\
    onnx_export E model = inr graph /\
    fs w' !! path_join onnx_dir "model.onnx" = Some (File graph).
Proof.
  pose proof (proj2 (wf_load_model (fun _ => True) (fun _ _ => I) E keys p w
                       (anything w))) as Hm.
  destruct (load_model E keys p w) as [[m|] w1]; [|done].
  destruct (export_and_verify E m onnx_dir w1) as [[e|[|]] w2] eqn:Hx; try done.
  intros [= <-]. apply export_and_verify_graph in Hx as (graph & Hg & Hfs).
  exists m, graph. split; [by apply Hm|done].
Qed.

(** X11.  A conversion that returns [True] has left the graph at
    [<output_dir>/onnx/model.onnx]: for the five torch conversions it is
    what [torch.onnx.export] made of a model in evaluation mode, for the
    AI detector what the optimum exporter made of the model id.  Neither
    the verification nor a quantization that follows touches that file. *)
Theorem a_true_conversion_left_the_graph_on_disk (E : env) (w w' : world) :
  (forall model_path quality_factor output_dir,
     FBCNN.convert_fbcnn_to_onnx E model_path quality_factor output_dir w
     = (inr true, w') ->
     exists model graph,
       in_training model = false /\ onnx_export E model = inr graph /\
       fs w' !! path_join
                  (path_join (default ("./models/fbcnn_q" +:+ pretty quality_factor)
                                output_dir) "onnx") "model.onnx"
       = Some (File graph)) /\
  (forall model_path output_dir,
     SCUNet.convert_scunet_to_onnx E model_path output_dir w = (inr true, w') ->
     exists model graph,
       in_training model = false /\ onnx_export E model = inr graph /\
       fs w' !! path_join (path_join (default "./models/scunet"%string output_dir) "onnx")
                  "model.onnx"
       = Some (File graph)) /\
  (forall model_path variant output_dir,
     ZeroDCE.convert_zero_dce_to_onnx E model_path variant output_dir w
     = (inr true, w') ->
     exists model graph,
       in_training model = false /\ onnx_export E model = inr graph /\
       fs w' !! path_join
                  (path_join (default ("./models/" +:+ replace_char "-" "_" variant)
                                output_dir) "onnx") "model.onnx"
       = Some (File graph)) /\
  (forall model_path variant output_dir,
     DeOldify.convert_deoldify_to_onnx E model_path variant output_dir w
     = (inr true, w') ->
     exists model graph,
       in_training model = false /\ onnx_export E model = inr graph /\
       fs w' !! path_join
                  (path_join (default ("./models/deoldify_" +:+ variant) output_dir)
                     "onnx") "model.onnx"
       = Some (File graph)) /\
  (forall model_name output_dir,
     RealESRGAN.convert_realesrgan_to_onnx E model_name output_dir w = (inr true, w') ->
     exists model graph,
       in_training model = false /\ onnx_export E model = inr graph /\
       fs w' !! path_join
                  (path_join (default ("./models/realesrgan-" +:+ lower model_name)
                                output_dir) "onnx") "model.onnx"
       = Some (File graph)) /\
  (forall model_id output_dir quantize,
     AIDetector.convert_model_to_onnx E model_id output_dir quantize w = (inr true, w') ->
     exists graph,
       ort_export E model_id = inr graph /\
       fs w' !! path_join
                  (path_join (default ("./models/" +:+ replace_char "/" "_" model_id)
                                output_dir) "onnx") "model.onnx"
       = Some (File graph)).
Proof.
  split; [|split; [|split; [|split; [|split]]]].
  - intros model_path quality_factor output_dir.
    unfold FBCNN.convert_fbcnn_to_onnx.
    destruct (make_output_dirs E _ w) as [[e|] w1]; [done|].
    unfold FBCNN.convert_body.
    destruct (match model_path with
              | Some p => (inr (Located p), w1)
              | None => FBCNN.locate E quality_factor w1
              end) as [[e|[p|]] w2]; try done.
    apply torch_tail_graph.
  - intros model_path output_dir. unfold SCUNet.convert_scunet_to_onnx.
    destruct (make_output_dirs E _ w) as [[e|] w1]; [done|].
    unfold SCUNet.convert_body.
    destruct (match model_path with
              | Some p => (inr (Located p), w1)
              | None => SCUNet.locate E w1
              end) as [[e|[p|]] w2]; try done.
    apply torch_tail_graph.
  - intros model_path variant output_dir. unfold ZeroDCE.convert_zero_dce_to_onnx.
    destruct (make_output_dirs E _ w) as [[e|] w1]; [done|].
    unfold ZeroDCE.convert_body.
    destruct (match model_path with
              | Some p => (inr (Located p), w1)
              | None => ZeroDCE.locate E variant w1
              end) as [[e|[p|]] w2]; try done.
    apply torch_tail_graph.
  - intros model_path variant output_dir. unfold DeOldify.convert_deoldify_to_onnx.
    destruct (make_output_dirs E _ w) as [[e|] w1]; [done|].
    unfold DeOldify.convert_body.
    destruct (match model_path with
              | Some p => (inr (Located p), w1)
              | None => DeOldify.locate E variant w1
              end) as [[e|[p|]] w2]; try done.
    pose proof (proj2 (wf_deoldify_load_model (fun _ => True) (fun _ _ => I) I I
                         E p w2 (anything w2))) as Hm.
    destruct (DeOldify.load_model E p w2) as [[m|] w3]; [|done].
    destruct (export_and_verify E m _ w3) as [[e|[|]] w4] eqn:Hx; try done.
    intros [= <-]. apply export_and_verify_graph in Hx as (graph & Hg & Hfs).
    exists m, graph. split; [by apply Hm|done].
  - intros model_name output_dir. unfold RealESRGAN.convert_realesrgan_to_onnx.
    case_match; [done|].
    destruct (make_output_dirs E _ w) as [[e|] w1]; [done|].
    unfold RealESRGAN.convert_body.
    destruct (realesrganer E) as [e|upsampler]; [done|].
    destruct (getattr upsampler "model") as [model|]; [|done].
    destruct (eval model) as [e|m] eqn:Hev; [done|].
    destruct (export_and_verify E m _ _) as [[e|[|]] w4] eqn:Hx; try done.
    intros [= <-]. apply export_and_verify_graph in Hx as (graph & Hg & Hfs).
    exists m, graph. split; [by eapply eval_not_training|done].
  - intros model_id output_dir quantize. unfold AIDetector.convert_model_to_onnx.
    case_match; [done|].
    destruct (make_output_dirs E _ w) as [[e|] w1]; [done|].
    unfold AIDetector.convert_body.
    destruct (hub_from_pretrained E model_id) as [e|]; [done|].
    destruct (ort_export E model_id) as [e|graph]; [done|].
    cbv zeta. intros [= <-]. exists graph. split; [done|].
    cbn [print emit fs].
    destruct quantize; [|cbn [print emit set_fs fs]; apply lookup_insert_eq].
    unfold AIDetector.quantize_step. cbn [print emit set_fs fs stdin trace].
    rewrite lookup_insert_eq.
    destruct (ort_quantize E graph) as [e|quantized]; cbn [print emit set_fs fs trace].
    + apply lookup_insert_eq.
    + rewrite lookup_insert_ne; [apply lookup_insert_eq|].
      unfold path_join. intros Heq.
      apply RunClaims.append_inj_l, RunClaims.append_inj_l in Heq. done.
Qed.

Lemma a_true_conversion_left_the_graph_on_disk_witness :
  exists model graph,
    in_training model = false /\
    onnx_export Scenario.module_under_key model = inr graph /\
    fs (snd (SCUNet.convert_scunet_to_onnx Scenario.module_under_key (Some "./m.pth")
               None Scenario.checkpoint_on_disk))
      !! path_join (path_join (default "./models/scunet"%string None) "onnx") "model.onnx"
    = Some (File graph).
Proof.
  apply (proj1 (proj2 (a_true_conversion_left_the_graph_on_disk
                         Scenario.module_under_key Scenario.checkpoint_on_disk
                         (snd (SCUNet.convert_scunet_to_onnx Scenario.module_under_key
                                 (Some "./m.pth") None Scenario.checkpoint_on_disk))))
           (Some "./m.pth"%string) None).
  vm_compute. reflexivity.
Defined.

End ScriptExtras.

(** ** The unit page generator *)

Module UnitPagesFacts.
Import UnitPages.

Lemma append_nil (b : string) : EmptyString +:+ b = b.
Proof. reflexivity. Qed.

Lemma append_cons (c : ascii) (a b : string) : String c a +:+ b = String c (a +:+ b).
Proof. reflexivity. Qed.

Lemma append_nil_r (a : string) : a +:+ EmptyString = a.
Proof. induction a as [|c a IH]; [done|]. by rewrite append_cons, IH. Qed.

Lemma length_append (a b : string) :
  String.length (a +:+ b) = (String.length a + String.length b)%nat.
Proof.
  induction a as [|c a IH]; [done|]. rewrite append_cons. simpl. by rewrite IH.
Qed.

Lemma append_assoc (a b c : string) : (a +:+ b) +:+ c = a +:+ b +:+ c.
Proof.
  induction a as [|x a IH]; [done|]. rewrite !append_cons. by rewrite IH.
Qed.

Lemma substring_here (o suffix : string) :
  String.substring 0 (String.length o) (o +:+ suffix) = o.
Proof.
  induction o as [|c o IH]; [by destruct suffix|].
  rewrite append_cons. simpl. by rewrite IH.
Qed.

Lemma substring_middle (prefix o suffix : string) :
  String.substring (String.length prefix) (String.length o) (prefix +:+ o +:+ suffix) = o.
Proof.
  induction prefix as [|c p IH]; [rewrite append_nil; apply substring_here|].
  rewrite append_cons. simpl. exact IH.
Qed.

Lemma scan_text block sep more i brace_count start_idx :
  brace_free sep = true ->
  scan block (sep +:+ more) i brace_count start_idx
  = scan block more (i + String.length sep) brace_count start_idx.
Proof.
  revert i. induction sep as [|c sep IH]; intros i Hfree.
  { rewrite append_nil. simpl. by rewrite Nat.add_0_r. }
  rewrite append_cons. cbn [scan String.length].
  simpl in Hfree. apply andb_prop in Hfree as [Hc Hfree].
  apply andb_prop in Hc as [Ho Hc].
  destruct (Ascii.eqb c "{"); [done|]. destruct (Ascii.eqb c "}"); [done|].
  rewrite IH by done. f_equal. lia.
Qed.

Lemma scan_closes block o more i depth start :
  closes (S depth) o = true ->
  scan block (o +:+ more) i (Z.of_nat (S depth)) (Some start)
  = String.substring start (i + String.length o - start) block
    :: scan block more (i + String.length o) 0 None.
Proof.
  revert i depth. induction o as [|c o IH]; intros i depth Hcl; [done|].
  cbn [closes] in Hcl. rewrite append_cons. cbn [scan String.length].
  destruct (Ascii.eqb c "{").
  - replace (Z.of_nat (S depth) + 1) with (Z.of_nat (S (S depth))) by lia.
    replace (Z.of_nat (S depth) =? 0) with false by (symmetry; apply Z.eqb_neq; lia).
    rewrite (IH (S i) (S depth) Hcl). do 2 f_equal; [f_equal|]; lia.
  - destruct (Ascii.eqb c "}").
    + destruct depth as [|depth].
      * destruct o; [|done]. rewrite append_nil. cbn [String.length].
        replace (Z.of_nat 1 - 1 =? 0) with true by done.
        replace (Z.of_nat 1 - 1) with 0 by done.
        do 2 f_equal; [f_equal|]; lia.
      * replace (Z.of_nat (S (S depth)) - 1) with (Z.of_nat (S depth)) by lia.
        replace (Z.of_nat (S depth) =? 0) with false by (symmetry; apply Z.eqb_neq; lia).
        rewrite (IH (S i) depth Hcl). do 2 f_equal; [f_equal|]; lia.
    + rewrite (IH (S i) depth Hcl). do 2 f_equal; [f_equal|]; lia.
Qed.

Lemma scan_object block o more i start_idx :
  is_object o = true ->
  scan block (o +:+ more) i 0 start_idx
  = String.substring i (String.length o) block
    :: scan block more (i + String.length o) 0 None.
Proof.
  destruct o as [|c o]; [done|]. intros Hobj. simpl in Hobj.
  apply andb_prop in Hobj as [Hc Hcl].
  rewrite append_cons. cbn [scan String.length]. rewrite Hc.
  change (0 =? 0) with true. cbv iota.
  change (0 + 1) with (Z.of_nat 1).
  rewrite (scan_closes block o more (S i) 0 i Hcl). do 2 f_equal; [f_equal|]; lia.
Qed.

Lemma scan_block prefix items tail :
  Forall (fun item => brace_free (fst item) = true /\ is_object (snd item) = true) items ->
  brace_free tail = true ->
  scan (prefix +:+ block_of items tail) (block_of items tail) (String.length prefix) 0 None
  = map snd items.
Proof.
  intros Hitems Htail. revert prefix.
  induction Hitems as [|[sep obj] items [Hsep Hobj] _ IH]; intros prefix;
    [simpl|change (block_of ((sep, obj) :: items) tail)
             with (sep +:+ obj +:+ block_of items tail); cbn [map snd]].
  { rewrite <- (append_nil_r tail) at 2. rewrite scan_text by done. done. }
  simpl in Hsep, Hobj.
  rewrite scan_text by done. rewrite scan_object by done.
  rewrite <- length_append.
  replace (prefix +:+ sep +:+ obj +:+ block_of items tail)
    with ((prefix +:+ sep) +:+ obj +:+ block_of items tail) by apply append_assoc.
  rewrite substring_middle. f_equal.
  rewrite <- length_append.
  replace ((prefix +:+ sep) +:+ obj +:+ block_of items tail)
    with (((prefix +:+ sep) +:+ obj) +:+ block_of items tail) by apply append_assoc.
  apply IH.
Qed.

(** X12.  On a block made of separators without braces and of objects
    whose braces match, the scan of [extract_units_from_js] returns the
    objects, each exactly once and in the order of the file, nested braces
    included. *)
Theorem the_scan_returns_the_top_level_objects
    (items : list (string * string)) (tail : string) :
  Forall (fun item => brace_free (fst item) = true /\ is_object (snd item) = true) items ->
  brace_free tail = true ->
  unit_objects (block_of items tail) = map snd items.
Proof.
  intros Hitems Htail. unfold unit_objects.
  pose proof (scan_block EmptyString items tail Hitems Htail) as H.
  rewrite append_nil in H. exact H.
Qed.

Lemma the_scan_returns_the_top_level_objects_witness :
  unit_objects
    (block_of [ (" ", "{ id: 'cm', factor: { num: 1 } }");
                (", ", "{ id: 'inch' }") ]%string " ")
  = [ "{ id: 'cm', factor: { num: 1 } }"; "{ id: 'inch' }" ]%string.
Proof.
  apply (the_scan_returns_the_top_level_objects
           [ (" ", "{ id: 'cm', factor: { num: 1 } }");
             (", ", "{ id: 'inch' }") ]%string " ").
  - repeat constructor.
  - reflexivity.
Defined.

Lemma scan_hidden block sep body more i :
  brace_free sep = true ->
  brace_free body = true ->
  scan block (sep +:+ String "{" (body +:+ String "}" more)) i (-1) None
  = scan block more (i + String.length sep + String.length body + 2) (-1) None.
Proof.
  intros Hsep Hbody. rewrite scan_text by done. cbn [scan].
  change (Ascii.eqb "{" "{") with true. cbv iota.
  change (-1 =? 0) with false. cbv iota. change (-1 + 1) with 0.
  rewrite scan_text by done. cbn [scan].
  change (Ascii.eqb "}" "{") with false. change (Ascii.eqb "}" "}") with true. cbv iota.
  cbv zeta. change (0 - 1) with (-1). change (-1 =? 0) with false. cbv iota.
  f_equal. lia.
Qed.

(** X13.  The scan does not recover from a closing brace that closes
    nothing: after one, the count of open braces is below zero for good,
    and none of the objects without nested braces that follow is
    returned. *)
Theorem a_stray_closing_brace_hides_the_objects_after_it
    (items : list (string * string)) (tail : string) :
  Forall (fun item => brace_free (fst item) = true /\ brace_free (snd item) = true) items ->
  brace_free tail = true ->
  unit_objects
    (String "}"
       (block_of (map (fun item => (fst item, String "{" (snd item +:+ String "}" EmptyString)))
                    items) tail))
  = [].
Proof.
  intros Hitems Htail. unfold unit_objects. cbn [scan].
  change (Ascii.eqb "}" "{") with false. change (Ascii.eqb "}" "}") with true.
  cbv iota zeta. change (0 - 1) with (-1). change (-1 =? 0) with false. cbv iota.
  generalize 1%nat as i.
  generalize (String "}"
       (block_of (map (fun item => (fst item, String "{" (snd item +:+ String "}" EmptyString)))
                    items) tail)) as block.
  intros block.
  induction Hitems as [|[sep body] items [Hsep Hbody] _ IH]; intros i.
  - simpl. rewrite <- (append_nil_r tail). rewrite scan_text by done. done.
  - cbn [map fst snd].
    change (block_of ((sep, String "{" (body +:+ String "}" EmptyString)) :: ?l) tail)
      with (sep +:+ String "{" (body +:+ String "}" EmptyString) +:+ block_of l tail).
    rewrite append_cons, append_assoc, append_cons, append_nil.
    simpl in Hsep, Hbody. rewrite scan_hidden by done. apply IH.
Qed.

Lemma a_stray_closing_brace_hides_the_objects_after_it_witness :
  unit_objects
    (String "}"
       (block_of (map (fun item => (fst item, String "{" (snd item +:+ String "}" EmptyString)))
                    [ (" ", " id: 'cm' "); (", ", " id: 'inch' ") ]%string) " "))
  = [].
Proof.
  apply (a_stray_closing_brace_hides_the_objects_after_it
           [ (" ", " id: 'cm' "); (", ", " id: 'inch' ") ]%string " ").
  - repeat constructor.
  - reflexivity.
Defined.






Section Counting.

Variable create_unit_page : string -> string -> unit_def -> unit_def -> string -> string.






End Counting.


End UnitPagesFacts.
